(** * cfgd: rendering configuration into systemd artifacts

    A shallow embedding of [src/cfgd.c].  The renderers ([set_ntp_server],
    [set_dns], [set_ssh_keys], [set_authentication], [set_if_addr],
    [set_if_neigh], [set_value]) are functions on an explicit [world]: the
    regular files on disk and the commands handed to [system(3)] so far.

    What the embedding fixes about the outside of the program:
    - C strings are [string]s; arrays with their [count] are lists.
    - Paths are compared as strings (no [.], [..] or link resolution).
    - Whether [fopen(path, "w")] succeeds and what [getpwnam] answers are
      given by the operating system.  For a single renderer the answers of
      [fopen] are a parameter, a function of the path.  For whole passes
      ([reconcile_os]) they are a function of the path and of the commands
      run so far, since a [mkdir -p] of the program can let a later open
      succeed.
    - Of the commands given to the shell only
      [rm -f /etc/systemd/network/*.network] changes the regular files that
      are modelled; the glob is expanded the way [sh] does it.  This is
      meant for command lines in which no string of the configuration
      brings in shell syntax ([quiet_command]).
    - [logx] only logs and is left out; allocation failures are left out.

    Of the process itself the file has the [SIGUSR2] handler and the option
    loop of [main], over the values [getopt_long] returns and with
    [inet_aton] as a parameter.  The event loop ([libev]) and the
    communication layer ([comm.c]) are outside. *)

From Stdlib Require Import ZArith String Ascii List DecimalString Lia.
From Stdlib Require OctalString.
From stdpp Require Import gmap strings list fin_maps.

(** ** C strings, [printf] formats and bounded buffers *)

(** The newline character, [\n] in the C source. *)
Definition LF : ascii := "010"%char.

Definition nl : string := String LF EmptyString.

(** The first [n] characters of [s] (all of [s] when it is shorter). *)
Fixpoint clip (n : nat) (s : string) : string :=
  match n, s with
  | S n', String c s' => String c (clip n' s')
  | _, _ => EmptyString
  end.

(** [snprintf(buf, size, ...)] and [vsnprintf]: of the expansion [s], at most
    [size - 1] characters are stored, followed by the terminating NUL.  The
    function gives the C string found in [buf] afterwards. *)
Definition snprintf (size : nat) (s : string) : string := clip (size - 1) s.

(** Bytes of [buf] written by [snprintf]: the characters and the NUL. *)
Definition snprintf_stored (size : nat) (s : string) : nat :=
  String.length (snprintf size s) + 1.

(** Arguments of a variadic call. *)
Inductive arg : Type :=
  | Str (s : string)
  | Int (z : Z).

(** [%d] of an [int]. *)
Definition dec (z : Z) : string := NilZero.string_of_int (Z.to_int z).

(** Expansion of a format with the conversions the program uses, [%s] and
    [%d].  A conversion without a matching argument (undefined in C, and no
    call of the program has one) expands to nothing. *)
Fixpoint format (fmt : string) (args : list arg) : string :=
  match fmt with
  | EmptyString => EmptyString
  | String c rest =>
      if Ascii.eqb c "%" then
        match rest with
        | EmptyString => EmptyString
        | String d rest' =>
            if Ascii.eqb d "s" then
              match args with
              | Str s :: args' => s +:+ format rest' args'
              | _ => format rest' (tail args)
              end
            else if Ascii.eqb d "d" then
              match args with
              | Int z :: args' => dec z +:+ format rest' args'
              | _ => format rest' (tail args)
              end
            else String d (format rest' args)
        end
      else String c (format rest args)
  end.

(** ** The world: files and issued commands *)

Record world : Type := World {
  files : gmap string string;   (* regular files: path to content *)
  issued : list string          (* commands given to system(3), oldest first *)
}.

Definition store (path content : string) (w : world) : world :=
  {| files := <[path := content]> (files w); issued := issued w |}.

(** *** The shell *)

Definition network_dir : string := "/etc/systemd/network/".

Fixpoint strip_prefix (p s : string) : option string :=
  match p, s with
  | EmptyString, _ => Some s
  | String a p', String b s' => if Ascii.eqb a b then strip_prefix p' s' else None
  | String _ _, EmptyString => None
  end.

Definition starts_with (p s : string) : bool :=
  match strip_prefix p s with
  | Some _ => true
  | None => false
  end.

Fixpoint drop_chars (n : nat) (s : string) : string :=
  match n, s with
  | S n', String _ s' => drop_chars n' s'
  | _, _ => s
  end.

Definition has_suffix (suf s : string) : bool :=
  String.eqb (drop_chars (String.length s - String.length suf) s) suf.

Fixpoint has_char (c : ascii) (s : string) : bool :=
  match s with
  | EmptyString => false
  | String d s' => Ascii.eqb c d || has_char c s'
  end.

Definition starts_with_dot (s : string) : bool :=
  match s with
  | String c _ => Ascii.eqb c "."
  | EmptyString => false
  end.

(** Pathname expansion of [/etc/systemd/network/*.network] by [sh]: the
    files of that directory whose name ends in [.network]; the [*] matches
    neither a [/] nor the period of a name that begins with one. *)
Definition glob_network (path : string) : bool :=
  match strip_prefix network_dir path with
  | Some base =>
      has_suffix ".network" base && negb (has_char "/" base)
      && negb (starts_with_dot base)
  | None => false
  end.

Definition rm_network : string := "rm -f /etc/systemd/network/*.network".

(** Effect of a command on the modelled files. *)
Definition sh (cmd : string) (fs : gmap string string) : gmap string string :=
  if String.eqb cmd rm_network
  then filter (λ kv : string * string, glob_network kv.1 = false) fs
  else fs.

(** [vsystem(cmd)]: runs [cmd] through [system(3)].  Its return code is
    ignored by every caller. *)
Definition vsystem (cmd : string) (w : world) : world :=
  {| files := sh cmd (files w); issued := issued w ++ [cmd] |}.

(** [vasystem(fmt, ...)]: expands into [char buf[1024]] with [vsnprintf] and
    runs the buffer. *)
Definition vasystem (fmt : string) (args : list arg) (w : world) : world :=
  vsystem (snprintf 1024 (format fmt args)) w.

(** *** stdio: streams opened for writing *)

Record FILE : Type := Stream {
  f_path : string;
  f_buf : string     (* what has been written to the stream so far *)
}.

Definition fputs (s : string) (f : FILE) : FILE :=
  {| f_path := f_path f; f_buf := f_buf f +:+ s |}.

Definition fputc (c : ascii) (f : FILE) : FILE := fputs (String c EmptyString) f.

Definition fprintf (f : FILE) (fmt : string) (args : list arg) : FILE :=
  fputs (format fmt args) f.

(** [fclose]: the buffered output reaches the file. *)
Definition fclose (f : FILE) (w : world) : world := store (f_path f) (f_buf f) w.

(** ** The configuration data *)

(** Modelled from the spec: [cfgd.h], which declares these structures, is not
    among the sources.  The fields are the ones [cfgd.c] reads; flags are
    booleans and sequences are ordered lists as in the data model of the
    specification, an MTU is a C [int]. *)
Record ntp_servers : Type := {
  enabled : bool;
  server : list string
}.

Definition string_list : Type := list string.

Record auth_ssh_key : Type := {
  key_algo : string;
  key_data : string;
  key_name : string
}.

Record auth_user : Type := {
  user_name : string;
  user_password : string;
  user_ssh : list auth_ssh_key
}.

Record ipaddr : Type := {
  address : string;
  value : string
}.

Record ip_family : Type := {
  mtu : Z;
  forwarding : bool;
  addr : list ipaddr;
  neigh : list ipaddr
}.

Record interface : Type := {
  if_name : string;
  dhcp_enabled : bool;
  ipv4 : ip_family;
  ipv6 : ip_family
}.

(** [struct passwd] of [<pwd.h>], the field the program reads; [None] is a
    null [pw_dir]. *)
Record passwd : Type := {
  pw_dir : option string
}.

(** [PATH_MAX] of [<limits.h>] on Linux. *)
Definition PATH_MAX : nat := 4096.

Definition ROOT_HOME : string := "/home/root".

Definition ntp_conf : string := "/etc/systemd/timesyncd.conf".
Definition dns_conf : string := "/etc/systemd/resolved.conf".

(** Control leaving a loop body: on to the code after the loop, or out of the
    function by [return]. *)
Inductive flow : Type :=
  | Next (w : world)
  | Return (w : world).

(** ** Scripts: the file and command effects of a run, in order *)

Inductive op : Type :=
  | Exec (cmd : string)
  | Put (path content : string).

Definition run_op (w : world) (o : op) : world :=
  match o with
  | Exec cmd => vsystem cmd w
  | Put path content => store path content w
  end.

Definition run (ops : list op) (w : world) : world := foldl run_op w ops.

(** What one operation does to the content found at [path] ([None]: no such
    file). *)
Definition op_on (path : string) (v : option string) (o : op) : option string :=
  match o with
  | Exec cmd =>
      if String.eqb cmd rm_network && glob_network path then None else v
  | Put q content => if String.eqb q path then Some content else v
  end.


(** The commands a run [f] issues from [w]. *)
Definition emitted (f : world -> world) (w : world) : list string :=
  drop (length (issued w)) (issued (f w)).

(** A run is scripted when its effect is that of a fixed script, whatever
    the world it starts from. *)
Definition scripted (f : world -> world) : Prop :=
  exists ops : list op, forall w : world, f w = run ops w.

(** ** Text helpers used to state what is rendered *)

(** The strings of a list one after the other. *)
Definition cat (l : list string) : string := foldr String.append EmptyString l.

(** One [Address=] line of an interface's file. *)
Definition address_line (ip : ipaddr) : string :=
  "Address=" +:+ address ip +:+ "/" +:+ value ip +:+ nl.

(** ** Reading rendered text *)

Definition is_nl (c : ascii) : bool := Ascii.eqb c LF.

(** The lines of a text, split at the newline characters. *)
Fixpoint lines (s : string) : list string :=
  match s with
  | EmptyString => [EmptyString]
  | String c s' =>
      if is_nl c then EmptyString :: lines s'
      else match lines s' with
           | l :: ls => String c l :: ls
           | [] => [String c EmptyString]
           end
  end.

Definition one_line (s : string) : bool := negb (has_char LF s).

(** Does [sub] occur in [s]? *)
Fixpoint mentions (sub s : string) : bool :=
  starts_with sub s ||
  match s with
  | EmptyString => false
  | String _ s' => mentions sub s'
  end.

Definition swap_mtu_family (f other : ip_family) : ip_family :=
  {| mtu := mtu other; forwarding := forwarding f; addr := addr f; neigh := neigh f |}.

(** The interface with the MTUs of its two families exchanged. *)
Definition swap_mtu (iface : interface) : interface :=
  {| if_name := if_name iface; dhcp_enabled := dhcp_enabled iface;
     ipv4 := swap_mtu_family (ipv4 iface) (ipv6 iface);
     ipv6 := swap_mtu_family (ipv6 iface) (ipv4 iface) |}.

(** ** Reconciliation passes *)

(** Modelled from the spec: the dispatcher that receives configuration and
    calls the renderers ([comm.c]) is not among the sources.  A snapshot
    holds the sub-trees the specification names; a pass ([reconcile_os],
    below) applies the renderers of the listed domains in the listed order,
    so what is proved for every [order] holds for the one the dispatcher
    uses. *)
Record ConfigSnapshot : Type := {
  ntp : ntp_servers;
  dns_search : string_list;
  dns_servers : string_list;
  interfaces : list interface;
  auth : list auth_user
}.

Inductive domain : Type :=
  | NtpDomain
  | DnsDomain
  | AddrDomain
  | NeighDomain
  | AuthDomain.

Definition flow_world (f : flow) : world :=
  match f with
  | Next w => w
  | Return w => w
  end.

(** ** The renderers *)

Section Cfgd.

(** [VERSION] comes from [config.h], which is generated at build time. *)
Variable VERSION : string.

(** The operating system: does [fopen(path, "w")] succeed, and the account
    database behind [getpwnam]. *)
Variable fopen_ok : string -> bool.
Variable getpwnam : string -> option passwd.

Definition _ident : string := "cfgd v" +:+ VERSION.

(** [fopen(path, "w")]: on success the file exists and is empty. *)
Definition fopen (path : string) (w : world) : option (FILE * world) :=
  if fopen_ok path
  then Some ({| f_path := path; f_buf := EmptyString |}, store path EmptyString w)
  else None.

Definition set_ntp_server (servers : ntp_servers) (w : world) : world :=
  match fopen ntp_conf w with
  | None => w
  | Some (fout, w) =>
      let fout := fprintf fout ("# AUTOGENERATED BY %s" +:+ nl +:+ "[Time]")
                          [Str _ident] in
      let fout := fputs (nl +:+ "NTP =") fout in
      let fout := foldl (fun f s => fputs s (fputc " " f)) fout (server servers) in
      let w := fclose fout w in
      let w := vsystem "systemctl stop systemd-timesyncd" w in
      vasystem "timedatectl set-ntp %d" [Int (Z.b2z (enabled servers))] w
  end.

Definition set_dns (search servers : string_list) (w : world) : world :=
  match fopen dns_conf w with
  | None => w
  | Some (fout, w) =>
      let fout := fprintf fout ("# AUTOGENERATED BY %s" +:+ nl +:+ "[Resolve]")
                          [Str _ident] in
      let fout := fputs (nl +:+ "DNS =") fout in
      let fout := foldl (fun f s => fputs s (fputc " " f)) fout servers in
      let fout := fputs (nl +:+ "Domains =") fout in
      let fout := foldl (fun f s => fputs s (fputc " " f)) fout search in
      let w := fclose fout w in
      vsystem "systemctl reload-or-restart systemd-resolved" w
  end.

(** The first part of [set_ssh_keys]: the file to write, and the world
    after the [mkdir]; [None] where the function returns. *)
Definition ssh_auth_file (name : string) (list : list auth_ssh_key) (w : world)
  : option (string * world) :=
  if String.eqb name "root" then
    Some (ROOT_HOME +:+ "/.ssh/authorized_keys", w)
  else if String.eqb name "netconfd" then
    Some ("/etc/netconf/authorized_keys", w)
  else
    match getpwnam name with
    | None => None
    | Some pw =>
        match pw_dir pw with
        | None => None
        | Some dir =>
            if Nat.eqb (length list) 0 then None
            else Some (format "%s/.ssh/authorized_keys" [Str dir],
                       vasystem "mkdir -p %s/.ssh" [Str dir] w)
        end
    end.

Definition set_ssh_keys (name : string) (list : list auth_ssh_key) (w : world)
  : world :=
  match ssh_auth_file name list w with
  | None => w
  | Some (auth_file, w) =>
      match fopen auth_file w with
      | None => w
      | Some (fout, w) =>
          let fout :=
            foldl (fun f k =>
                     fprintf f ("%s %s %s" +:+ nl)
                             [Str (key_algo k); Str (key_data k); Str (key_name k)])
                  fout list in
          fclose fout w
      end
  end.

Definition set_authentication (auth : list auth_user) (w : world) : world :=
  foldl (fun w u => set_ssh_keys (user_name u) (user_ssh u) w) w auth.

Definition systemd_cfg (iface : interface) : string :=
  snprintf PATH_MAX (format "/etc/systemd/network/%s.network" [Str (if_name iface)]).

(** What [set_if_addr] writes between [fopen] and [fclose]. *)
Definition write_iface (iface : interface) (fout : FILE) : FILE :=
  let fout :=
    fprintf fout
      ("# AUTOGENERATED BY %s" +:+ nl +:+ "[Match]" +:+ nl +:+ "Name=%s" +:+ nl
       +:+ "[Link]" +:+ nl +:+ "MTUBytes=%d" +:+ nl +:+ "[Network]" +:+ nl
       +:+ "DHCP=%s" +:+ nl)
      [Str _ident; Str (if_name iface);
       Int (if (mtu (ipv4 iface) >? mtu (ipv6 iface))%Z
            then mtu (ipv4 iface) else mtu (ipv6 iface));
       Str (if dhcp_enabled iface then "yes" else "no")] in
  let fout :=
    foldl (fun f ip => fprintf f ("Address=%s/%s" +:+ nl) [Str (address ip); Str (value ip)])
          fout (addr (ipv4 iface)) in
  let fout :=
    foldl (fun f ip => fprintf f ("Address=%s/%s" +:+ nl) [Str (address ip); Str (value ip)])
          fout (addr (ipv6 iface)) in
  if forwarding (ipv4 iface) && forwarding (ipv6 iface) then
    fputs ("IPForward=yes" +:+ nl) fout
  else if forwarding (ipv4 iface) then
    fputs ("IPForward=ipv4" +:+ nl) fout
  else if forwarding (ipv6 iface) then
    fputs ("IPForward=ipv6" +:+ nl) fout
  else fout.

(** The loop of [set_if_addr]; a failed [fopen] returns from the function. *)
Fixpoint set_if_addr_loop (info : list interface) (w : world) : flow :=
  match info with
  | [] => Next w
  | iface :: rest =>
      match fopen (systemd_cfg iface) w with
      | None => Return w
      | Some (fout, w) => set_if_addr_loop rest (fclose (write_iface iface fout) w)
      end
  end.

Definition set_if_addr (info : list interface) (w : world) : world :=
  let w := vsystem rm_network w in
  match set_if_addr_loop info w with
  | Return w => w
  | Next w => vsystem "systemctl reload-or-restart systemd-networkd" w
  end.

Definition neigh_replace (iface : interface) (w : world) (ip : ipaddr) : world :=
  vasystem "ip neigh replace %s lladdr %s nud permanent dev %s"
           [Str (address ip); Str (value ip); Str (if_name iface)] w.

Definition set_if_neigh (info : list interface) (w : world) : world :=
  let w := vsystem "ip neigh flush nud permanent" w in
  foldl (fun w iface =>
           let w := foldl (neigh_replace iface) w (neigh (ipv4 iface)) in
           foldl (neigh_replace iface) w (neigh (ipv6 iface)))
        w info.

(** [set_value]: the only effect, setting the host name, is compiled out
    ([#if 0]); what is left logs. *)
Definition set_value (path str : string) (w : world) : world := w.

(** The command [neigh_replace] runs: the buffer of [vasystem]. *)
Definition neigh_command (iface : interface) (ip : ipaddr) : string :=
  snprintf 1024
    (format "ip neigh replace %s lladdr %s nud permanent dev %s"
            [Str (address ip); Str (value ip); Str (if_name iface)]).

(** The text of an interface's file. *)
Definition iface_text (iface : interface) : string :=
  f_buf (write_iface iface {| f_path := systemd_cfg iface; f_buf := EmptyString |}).

End Cfgd.

(** ** More text helpers *)

(** One line of an authorized-keys file. *)
Definition key_line (k : auth_ssh_key) : string :=
  key_algo k +:+ " " +:+ key_data k +:+ " " +:+ key_name k +:+ nl.

(** The command [set_ssh_keys] runs to create the [.ssh] directory under
    [dir]: the buffer of [vasystem]. *)
Definition mkdir_command (dir : string) : string :=
  snprintf 1024 (format "mkdir -p %s/.ssh" [Str dir]).

(** The authorized-keys file of a user, where [set_ssh_keys] gets as far as
    opening one. *)
Definition auth_path (getpwnam : string -> option passwd) (u : auth_user)
  : option string :=
  if String.eqb (user_name u) "root" then
    Some (ROOT_HOME +:+ "/.ssh/authorized_keys")
  else if String.eqb (user_name u) "netconfd" then
    Some "/etc/netconf/authorized_keys"
  else
    match getpwnam (user_name u) with
    | Some {| pw_dir := Some dir |} =>
        match user_ssh u with
        | [] => None
        | _ :: _ => Some (dir +:+ "/.ssh/authorized_keys")
        end
    | _ => None
    end.

(** The commands issued for a user: the [mkdir] for an account found by
    [getpwnam] that has a home directory and at least one key. *)
Definition auth_commands (getpwnam : string -> option passwd) (u : auth_user)
  : list string :=
  if String.eqb (user_name u) "root" then []
  else if String.eqb (user_name u) "netconfd" then []
  else
    match getpwnam (user_name u) with
    | Some {| pw_dir := Some dir |} =>
        match user_ssh u with
        | [] => []
        | _ :: _ => [mkdir_command dir]
        end
    | _ => []
    end.

(** ** The process: log level, signals and options *)

(** [LOG_INFO] and [LOG_DEBUG] of [<syslog.h>]. *)
Definition LOG_INFO : Z := 6.
Definition LOG_DEBUG : Z := 7.

Definition EXIT_SUCCESS : Z := 0.
Definition EXIT_FAILURE : Z := 1.

(** What [main] sets up before the event loop runs: the log level
    ([logx_level]), the address given to [logx_remote], and what [main]
    itself has printed on the two streams.  The diagnostics [getopt_long]
    writes to the error stream on its own are not part of [stderr]. *)
Record process : Type := {
  logx_level : Z;
  log_remote : option string;
  stdout : list string;
  stderr : list string
}.

(** [sig_usr2]: the handler of [SIGUSR2]. *)
Definition sig_usr2 (p : process) : process :=
  {| logx_level := if Z.eqb (logx_level p) LOG_DEBUG then LOG_INFO else LOG_DEBUG;
     log_remote := log_remote p; stdout := stdout p; stderr := stderr p |}.

(** [sig_usr1]: the handler of [SIGUSR1], with an empty body. *)
Definition sig_usr1 (p : process) : process := p.

(** [%o] of an [unsigned int]. *)
Definition oct (z : Z) : string :=
  match Z.to_N (z mod 2 ^ 32) with
  | N0 => "0"
  | Npos q => OctalString.Raw.of_pos q EmptyString
  end.

Definition usage_text : string :=
  "cfgd, Version: ....." +:+ nl +:+ nl
  +:+ "Usage: cfg [OPTION...]" +:+ nl +:+ nl
  +:+ "Options:" +:+ nl +:+ nl
  +:+ "  -h                        this help" +:+ nl
  +:+ "  -l, --log=IP              write log to syslog at this IP" +:+ nl
  +:+ "  -x                        debug logging" +:+ nl +:+ nl.

(** How the option loop of [main] ends: the loop is left and start-up goes
    on, or the process exits. *)
Inductive startup : Type :=
  | Started (p : process)
  | Exited (status : Z) (p : process).

Definition char_code (c : ascii) : Z := Z.of_nat (nat_of_ascii c).

Section Options.

(** [inet_aton]: [None] where it returns 0; otherwise the address, kept as
    the text it was parsed from. *)
Variable inet_aton : string -> option string.

(** The [while (1)] loop of [main] over the values [getopt_long] returns,
    each with the [optarg] it sets; past the end of the list [getopt_long]
    returns -1. *)
Fixpoint option_loop (opts : list (Z * string)) (p : process) : startup :=
  match opts with
  | [] => Started p
  | (c, optarg) :: rest =>
      if Z.eqb c (-1) then Started p
      else if Z.eqb c (char_code "h") then
        Exited EXIT_SUCCESS
               {| logx_level := logx_level p; log_remote := log_remote p;
                  stdout := stdout p ++ [usage_text]; stderr := stderr p |}
      else if Z.eqb c (char_code "l") then
        match inet_aton optarg with
        | None =>
            Exited EXIT_FAILURE
                   {| logx_level := logx_level p; log_remote := log_remote p;
                      stdout := stdout p;
                      stderr := stderr p
                                ++ [format ("Invalid IP address: '%s'" +:+ nl)
                                           [Str optarg]] |}
        | Some a =>
            option_loop rest
              {| logx_level := logx_level p; log_remote := Some a;
                 stdout := stdout p; stderr := stderr p |}
        end
      else if Z.eqb c (char_code "x") then
        option_loop rest
          {| logx_level := LOG_DEBUG; log_remote := log_remote p;
             stdout := stdout p; stderr := stderr p |}
      else
        option_loop rest
          {| logx_level := logx_level p; log_remote := log_remote p;
             stdout := stdout p
                       ++ ["?? getopt returned character code 0" +:+ oct c
                           +:+ " ??" +:+ nl];
             stderr := stderr p |}
  end.

(** [main] up to the end of the option loop: the log level starts at
    [LOG_INFO]. *)
Definition main_options (opts : list (Z * string)) : startup :=
  option_loop opts
    {| logx_level := LOG_INFO; log_remote := None; stdout := []; stderr := [] |}.

End Options.

(** An option that neither ends the loop nor exits: not -1, not [-h], and
    when it is [-l] its address parses. *)
Definition passes (inet_aton : string -> option string) (o : Z * string) : bool :=
  negb (Z.eqb o.1 (-1)) && negb (Z.eqb o.1 (char_code "h"))
  && (negb (Z.eqb o.1 (char_code "l")) || bool_decide (is_Some (inet_aton o.2))).

(** What the [default:] case of the [switch] prints for a code. *)
Definition unknown_code_line (c : Z) : string :=
  "?? getopt returned character code 0" +:+ oct c +:+ " ??" +:+ nl.

(** The lines printed for options that pass: one for each code other than
    [l] and [x], in order. *)
Definition unknown_lines (opts : list (Z * string)) : list string :=
  flat_map (fun o => if Z.eqb o.1 (char_code "l") || Z.eqb o.1 (char_code "x")
                     then [] else [unknown_code_line o.1])
           opts.

(** The address of the last [-l] among options that all pass. *)
Definition last_remote (inet_aton : string -> option string)
           (opts : list (Z * string)) : option string :=
  foldl (fun r o => if Z.eqb o.1 (char_code "l") then inet_aton o.2 else r)
        None opts.

(** ** Passes on an operating system whose opens depend on what has run *)

Fixpoint all_chars (p : ascii -> bool) (s : string) : bool :=
  match s with
  | EmptyString => true
  | String c s' => p c && all_chars p s'
  end.

(** A character the shell does not interpret: a letter, a digit, a space or
    one of [. : / _ - @ % + , =]. *)
Definition plain_char (c : ascii) : bool :=
  (Nat.leb 48 (nat_of_ascii c) && Nat.leb (nat_of_ascii c) 57)
  || (Nat.leb 65 (nat_of_ascii c) && Nat.leb (nat_of_ascii c) 90)
  || (Nat.leb 97 (nat_of_ascii c) && Nat.leb (nat_of_ascii c) 122)
  || has_char c " .:/_-@%+,=".

(** A command that is what its template says: the [rm] with its glob, or a
    command line of plain characters only, in which no string taken from
    the configuration can bring in shell syntax.  The model of the shell
    ([sh]) is meant for such commands. *)
Definition quiet_command (cmd : string) : bool :=
  String.eqb cmd rm_network || all_chars plain_char cmd.

Section Os.

Variable VERSION : string.

(** [os history path]: does [fopen(path, "w")] succeed once the commands of
    [history] have been run (a directory made by an earlier [mkdir -p] can
    let a later open succeed). *)
Variable os : list string -> string -> bool.
Variable getpwnam : string -> option passwd.

(** [set_authentication] on such a system.  Within one call of
    [set_ssh_keys] the open comes after the user's [mkdir], if there is
    one. *)
Definition set_authentication_os (auth : list auth_user) (w : world) : world :=
  foldl (fun w u =>
           set_ssh_keys (os (issued w ++ auth_commands getpwnam u)) getpwnam
                        (user_name u) (user_ssh u) w)
        w auth.

(** One renderer on such a system.  [set_ntp_server] and [set_dns] open
    their file before they run a command; every open of [set_if_addr] comes
    after its [rm] and before its reload. *)
Definition apply_domain_os (s : ConfigSnapshot) (w : world) (d : domain) : world :=
  match d with
  | NtpDomain => set_ntp_server VERSION (os (issued w)) (ntp s) w
  | DnsDomain => set_dns VERSION (os (issued w)) (dns_search s) (dns_servers s) w
  | AddrDomain =>
      set_if_addr VERSION (os (issued w ++ [rm_network])) (interfaces s) w
  | NeighDomain => set_if_neigh (interfaces s) w
  | AuthDomain => set_authentication_os (auth s) w
  end.

Definition reconcile_os (order : list domain) (s : ConfigSnapshot) (w : world)
  : world :=
  foldl (apply_domain_os s) w order.

End Os.

(** ** Sample configurations *)

Definition empty_world : world := {| files := ∅; issued := [] |}.

Definition fopen_always (path : string) : bool := true.
Definition fopen_never (path : string) : bool := false.
Definition no_account (name : string) : option passwd := None.

Definition ntp_off : ntp_servers := {| enabled := false; server := [] |}.
Definition ntp_two : ntp_servers :=
  {| enabled := true; server := ["0.pool.example"; "192.0.2.1"] |}.

Definition family (m : Z) (fwd : bool) (ips : list ipaddr) : ip_family :=
  {| mtu := m; forwarding := fwd; addr := ips; neigh := [] |}.

Definition eth0 : interface :=
  {| if_name := "eth0"; dhcp_enabled := false;
     ipv4 := family 1500 true [{| address := "192.0.2.7"; value := "24" |}];
     ipv6 := family 1492 false [] |}.

Definition wan : interface :=
  {| if_name := "wan"; dhcp_enabled := true;
     ipv4 := family 1500 false []; ipv6 := family 1500 false [] |}.

(** An interface whose name begins with a period (Linux accepts such a
    name). *)
Definition dot_lan : interface :=
  {| if_name := ".lan"; dhcp_enabled := true;
     ipv4 := family 1500 false []; ipv6 := family 1500 false [] |}.

(** A neighbour entry whose address is 1100 characters long, on [eth0]. *)
Definition long_neighbour : ipaddr :=
  {| address := string_of_list_ascii (repeat "a"%char 1100);
     value := "02:00:00:00:00:01" |}.

Definition key_alice : auth_ssh_key :=
  {| key_algo := "ssh-ed25519"; key_data := "AAAAC3NzaC1lZDI1NTE5";
     key_name := "alice@example" |}.

Definition key_admin : auth_ssh_key :=
  {| key_algo := "ssh-rsa"; key_data := "AAAAB3NzaC1yc2E"; key_name := "admin@example" |}.

Definition alice : auth_user :=
  {| user_name := "alice"; user_password := "x"; user_ssh := [key_alice] |}.

Definition root_old : auth_user :=
  {| user_name := "root"; user_password := "x"; user_ssh := [key_alice] |}.

Definition root_new : auth_user :=
  {| user_name := "root"; user_password := "x"; user_ssh := [key_admin] |}.

(** An account database that knows [alice], with home [/home/alice]. *)
Definition accounts (name : string) : option passwd :=
  if String.eqb name "alice" then Some {| pw_dir := Some "/home/alice" |} else None.

(** An operating system on which the file of [wan] cannot be opened. *)
Definition fopen_not_wan (path : string) : bool :=
  negb (String.eqb path "/etc/systemd/network/wan.network").

(** An [inet_aton] that accepts one address. *)
Definition inet_aton_sample (s : string) : option string :=
  if String.eqb s "192.0.2.9" then Some s else None.

(** *** A system with directories *)











Definition eth1 : interface :=
  {| if_name := "eth1"; dhcp_enabled := false;
     ipv4 := {| mtu := 1500; forwarding := false; addr := [];
                neigh := [{| address := "192.0.2.1"; value := "02:00:00:00:00:01" |}] |};
     ipv6 := family 1500 false [] |}.


(** * Facts *)

(** ** Strings *)

Lemma append_cons (c : ascii) (a b : string) :
  String c a +:+ b = String c (a +:+ b).
Proof. reflexivity. Qed.

Lemma append_empty_l (a : string) : EmptyString +:+ a = a.
Proof. reflexivity. Qed.

Lemma append_length (a b : string) :
  String.length (a +:+ b) = String.length a + String.length b.
Proof.
  induction a as [|c a IH]; [done |].
  rewrite append_cons. simpl. by rewrite IH.
Qed.

Lemma append_assoc (a b c : string) : (a +:+ b) +:+ c = a +:+ (b +:+ c).
Proof. induction a as [|x a IH]; [done | by rewrite !append_cons, IH]. Qed.

Lemma append_empty_r (a : string) : a +:+ EmptyString = a.
Proof. induction a as [|x a IH]; [done | by rewrite !append_cons, IH]. Qed.

Lemma clip_substring (n : nat) (s : string) : clip n s = substring 0 n s.
Proof.
  revert s; induction n as [|n IH]; intros [|c s]; simpl; try done.
  by rewrite IH.
Qed.

Lemma clip_length (n : nat) (s : string) :
  String.length (clip n s) = Nat.min n (String.length s).
Proof.
  revert s; induction n as [|n IH]; intros [|c s]; simpl; try done.
  by rewrite IH.
Qed.

Lemma clip_fits (n : nat) (s : string) : String.length s <= n -> clip n s = s.
Proof.
  revert s; induction n as [|n IH]; intros [|c s]; simpl; intros H; try done.
  - lia.
  - rewrite IH; [done | lia].
Qed.

Lemma clip_drop (n : nat) (s : string) : s = clip n s +:+ drop_chars n s.
Proof.
  revert s; induction n as [|n IH]; intros [|c s]; simpl; try done.
  by rewrite append_cons, <- IH.
Qed.

Lemma drop_chars_length (n : nat) (s : string) :
  String.length (drop_chars n s) = String.length s - n.
Proof.
  revert s; induction n as [|n IH]; intros [|c s]; simpl; try done.
Qed.

(** ** The shell adapter *)

Lemma issued_vsystem (cmd : string) (w : world) :
  issued (vsystem cmd w) = issued w ++ [cmd].
Proof. done. Qed.

(** C10.  [vasystem] runs the expansion of its format cut to the first 1023
    characters: an expansion of at most 1023 characters is run as it is, a
    longer one loses everything from its 1024th character on, and with the
    terminating NUL never more than the 1024 bytes of the buffer are
    written. *)
Theorem vasystem_runs_truncated (fmt : string) (args : list arg) (w : world) :
  exists cmd : string,
    issued (vasystem fmt args w) = issued w ++ [cmd]
    /\ cmd = substring 0 1023 (format fmt args)
    /\ String.length cmd = Nat.min 1023 (String.length (format fmt args))
    /\ (if String.length (format fmt args) <=? 1023
        then cmd = format fmt args
        else exists rest : string,
               rest <> EmptyString /\ format fmt args = cmd +:+ rest)
    /\ snprintf_stored 1024 (format fmt args) <= 1024.
Proof.
  exists (clip 1023 (format fmt args)).
  split; [done |].
  split; [apply clip_substring |].
  split; [apply clip_length |].
  split.
  - destruct (Nat.leb_spec (String.length (format fmt args)) 1023) as [Hle | Hgt].
    + by apply clip_fits.
    + exists (drop_chars 1023 (format fmt args)).
      split; [| apply clip_drop].
      intros Hnil.
      pose proof (drop_chars_length 1023 (format fmt args)) as Hlen.
      rewrite Hnil in Hlen. simpl in Hlen. lia.
  - unfold snprintf_stored, snprintf.
    change (1024 - 1) with 1023.
    rewrite clip_length. lia.
Qed.

Lemma cat_app (a b : list string) : cat (a ++ b) = cat a +:+ cat b.
Proof.
  induction a as [|x a IH]; [reflexivity |].
  cbn [app cat foldr]. fold (cat (a ++ b)). fold (cat a).
  by rewrite IH, append_assoc.
Qed.

(** ** Scripts *)

Lemma sh_lookup (cmd : string) (fs : gmap string string) (path : string) :
  sh cmd fs !! path = op_on path (fs !! path) (Exec cmd).
Proof.
  unfold sh, op_on.
  destruct (String.eqb cmd rm_network); simpl; [| done].
  rewrite map_lookup_filter.
  destruct (fs !! path) as [content|]; simpl.
  - destruct (glob_network path); by simplify_option_eq.
  - by destruct (glob_network path).
Qed.




Lemma run_app (a b : list op) (w : world) : run (a ++ b) w = run b (run a w).
Proof. apply foldl_app. Qed.




Lemma scripted_skip : scripted (fun w => w).
Proof. by exists []. Qed.

Lemma scripted_seq (f g : world -> world) :
  scripted f -> scripted g -> scripted (fun w => g (f w)).
Proof.
  intros [a Ha] [b Hb]. exists (a ++ b). intros w.
  by rewrite run_app, <- Ha, <- Hb.
Qed.

Lemma scripted_ext (f g : world -> world) :
  (forall w, f w = g w) -> scripted g -> scripted f.
Proof. intros Hfg [ops Hg]. exists ops. intros w. by rewrite Hfg. Qed.

Lemma scripted_vsystem (cmd : string) : scripted (vsystem cmd).
Proof. by exists [Exec cmd]. Qed.

Lemma scripted_vasystem (fmt : string) (args : list arg) :
  scripted (vasystem fmt args).
Proof. apply scripted_vsystem. Qed.

Lemma scripted_store (path content : string) : scripted (store path content).
Proof. by exists [Put path content]. Qed.

Lemma scripted_fclose (f : FILE) : scripted (fclose f).
Proof. apply scripted_store. Qed.

Lemma scripted_foldl {A : Type} (step : world -> A -> world) (l : list A) :
  (forall x, scripted (fun w => step w x)) ->
  scripted (fun w => foldl step w l).
Proof.
  intros Hstep. induction l as [|x l IH] using rev_ind.
  - apply scripted_skip.
  - apply (scripted_ext _ (fun w => step (foldl step w l) x)).
    + intros w. apply foldl_snoc.
    + apply (scripted_seq _ (fun w => step w x)); [apply IH | apply Hstep].
Qed.

(** ** Streams and rendered text *)

Lemma has_char_cons (c d : ascii) (s : string) :
  has_char c (String d s) = Ascii.eqb c d || has_char c s.
Proof. reflexivity. Qed.

Lemma lines_cons (c : ascii) (s : string) :
  lines (String c s)
  = if is_nl c then EmptyString :: lines s
    else match lines s with
         | l :: ls => String c l :: ls
         | [] => [String c EmptyString]
         end.
Proof. reflexivity. Qed.

Lemma has_char_append (c : ascii) (a b : string) :
  has_char c (a +:+ b) = has_char c a || has_char c b.
Proof.
  induction a as [|x a IH]; [done |].
  by rewrite append_cons, !has_char_cons, IH, orb_assoc.
Qed.

Lemma one_line_append (a b : string) :
  one_line (a +:+ b) = one_line a && one_line b.
Proof. unfold one_line. by rewrite has_char_append, negb_orb. Qed.

Lemma lines_not_nil (s : string) : lines s <> [].
Proof.
  induction s as [|c s IH]; [done |].
  rewrite lines_cons. destruct (is_nl c); [done |]. by destruct (lines s).
Qed.

Lemma lines_one_line (s : string) : one_line s = true -> lines s = [s].
Proof.
  unfold one_line. induction s as [|c s IH]; [done |].
  rewrite has_char_cons, lines_cons. unfold is_nl.
  rewrite (Ascii.eqb_sym c).
  destruct (Ascii.eqb LF c); [done |].
  rewrite orb_false_l. intros H. by rewrite IH.
Qed.

Lemma lines_append_nl (a b : string) :
  lines (a +:+ nl +:+ b) = lines a ++ lines b.
Proof.
  induction a as [|c a IH]; [done |].
  rewrite append_cons, !lines_cons, IH.
  destruct (is_nl c); [done |].
  pose proof (lines_not_nil a) as Hne.
  by destruct (lines a).
Qed.

Lemma lines_first (a b : string) :
  one_line a = true -> lines (a +:+ nl +:+ b) = a :: lines b.
Proof. intros H. by rewrite lines_append_nl, (lines_one_line a). Qed.

Lemma foldl_fputs {A : Type} (g : A -> string) (l : list A) (f : FILE) :
  foldl (fun f x => fputs (g x) f) f l
  = {| f_path := f_path f; f_buf := f_buf f +:+ cat (map g l) |}.
Proof.
  revert f; induction l as [|x l IH]; intros f; simpl.
  - rewrite append_empty_r. by destruct f.
  - rewrite IH. simpl. by rewrite append_assoc.
Qed.

Lemma foldl_spaced (l : list string) (f : FILE) :
  foldl (fun f s => fputs s (fputc " " f)) f l
  = {| f_path := f_path f; f_buf := f_buf f +:+ cat (map (String.append " ") l) |}.
Proof.
  revert f; induction l as [|x l IH]; intros f; simpl.
  - rewrite append_empty_r. by destruct f.
  - rewrite IH. simpl. by rewrite !append_assoc.
Qed.

Lemma concat_spaced (h : string) (l : list string) :
  String.concat " " (h :: l) = h +:+ cat (map (String.append " ") l).
Proof.
  revert h; induction l as [|x l IH]; intros h.
  - simpl. by rewrite append_empty_r.
  - change (String.concat " " (h :: x :: l))
      with (h +:+ " " +:+ String.concat " " (x :: l)).
    rewrite IH. simpl. by rewrite append_assoc.
Qed.

Lemma one_line_concat (h : string) (l : list string) :
  one_line h = true -> Forall (fun s => one_line s = true) l ->
  one_line (String.concat " " (h :: l)) = true.
Proof.
  intros Hh Hl. rewrite concat_spaced, one_line_append, Hh. simpl.
  induction Hl as [|x l Hx _ IH]; [done |].
  simpl. by rewrite !one_line_append, Hx, IH.
Qed.

Lemma store_lookup_eq (path content : string) (w : world) :
  files (store path content w) !! path = Some content.
Proof. apply lookup_insert_eq. Qed.

Lemma store_lookup_ne (path content other : string) (w : world) :
  path <> other -> files (store path content w) !! other = files w !! other.
Proof. intros Hne. by apply lookup_insert_ne. Qed.

(** A command leaves alone the files the glob does not match. *)
Lemma vsystem_lookup_other (cmd path : string) (w : world) :
  glob_network path = false ->
  files (vsystem cmd w) !! path = files w !! path.
Proof.
  intros Hglob. simpl. rewrite sh_lookup. simpl.
  by rewrite Hglob, andb_false_r.
Qed.

(** Only [rm_network] changes files. *)
Lemma vsystem_files_other (cmd : string) (w : world) :
  String.eqb cmd rm_network = false -> files (vsystem cmd w) = files w.
Proof. intros Hne. simpl. unfold sh. by rewrite Hne. Qed.

Section Facts.

Variable VERSION : string.
Variable fopen_ok : string -> bool.
Variable getpwnam : string -> option passwd.

(** *** The time-sync renderer *)

Lemma set_ntp_server_opened (servers : ntp_servers) (w : world) :
  fopen_ok ntp_conf = true ->
  set_ntp_server VERSION fopen_ok servers w
  = vsystem (if enabled servers then "timedatectl set-ntp 1"
             else "timedatectl set-ntp 0")
      (vsystem "systemctl stop systemd-timesyncd"
         (store ntp_conf
            ("# AUTOGENERATED BY cfgd v" +:+ VERSION +:+ nl +:+ "[Time]" +:+ nl
             +:+ String.concat " " ("NTP =" :: server servers))
            (store ntp_conf EmptyString w))).
Proof.
  intros Hok. unfold set_ntp_server, fopen. rewrite Hok.
  rewrite foldl_spaced, concat_spaced.
  unfold fclose, fputs, fprintf; cbn [f_path f_buf].
  replace (vasystem "timedatectl set-ntp %d" [Int (Z.b2z (enabled servers))])
    with (vsystem (if enabled servers then "timedatectl set-ntp 1"
                   else "timedatectl set-ntp 0"))
    by (by destruct (enabled servers)).
  do 3 f_equal.
  change (format ("# AUTOGENERATED BY %s" +:+ nl +:+ "[Time]") [Str (_ident VERSION)])
    with ("# AUTOGENERATED BY " +:+ _ident VERSION +:+ nl +:+ "[Time]").
  unfold _ident, fputs; cbn [f_path f_buf].
  rewrite append_empty_l, !append_assoc. reflexivity.
Qed.

(** C4.  When [fopen] of the time-sync configuration fails,
    [set_ntp_server] returns with the world as it found it: no command is
    issued and no file is created or changed. *)
Theorem set_ntp_server_open_failure (servers : ntp_servers) (w : world) :
  fopen_ok ntp_conf = false ->
  set_ntp_server VERSION fopen_ok servers w = w.
Proof. intros Hfail. unfold set_ntp_server, fopen. by rewrite Hfail. Qed.

(** C3 (amended).  When the file is written, [set_ntp_server] issues two
    commands and no other: first the stop of the time-sync service, then
    the [timedatectl set-ntp] toggle carrying the [enabled] flag. *)
Theorem set_ntp_server_stop_then_toggle (servers : ntp_servers) (w : world) :
  fopen_ok ntp_conf = true ->
  issued (set_ntp_server VERSION fopen_ok servers w)
  = issued w ++ ["systemctl stop systemd-timesyncd";
                 "timedatectl set-ntp " +:+ (if enabled servers then "1" else "0")].
Proof.
  intros Hok. rewrite set_ntp_server_opened by done.
  rewrite !issued_vsystem. simpl. rewrite <- app_assoc. simpl.
  by destruct (enabled servers).
Qed.

(** C5.  With server strings (and a version string) free of newlines, the
    file [set_ntp_server] writes has three lines: the header, [[Time]] and
    one [NTP =] line, which is [NTP =] followed by the servers in input
    order, each after one space; with no server the line is [NTP =]
    alone. *)
Theorem set_ntp_server_ntp_line (servers : ntp_servers) (w : world) :
  fopen_ok ntp_conf = true ->
  one_line VERSION = true ->
  Forall (fun s => one_line s = true) (server servers) ->
  exists content : string,
    files (set_ntp_server VERSION fopen_ok servers w) !! ntp_conf = Some content
    /\ lines content
       = ["# AUTOGENERATED BY cfgd v" +:+ VERSION; "[Time]";
          String.concat " " ("NTP =" :: server servers)]
    /\ length (List.filter (starts_with "NTP =") (lines content)) = 1
    /\ (server servers = [] ->
        lines content = ["# AUTOGENERATED BY cfgd v" +:+ VERSION; "[Time]"; "NTP ="]).
Proof.
  intros Hok Hver Hservers.
  exists ("# AUTOGENERATED BY cfgd v" +:+ VERSION +:+ nl +:+ "[Time]" +:+ nl
          +:+ String.concat " " ("NTP =" :: server servers)).
  split.
  { rewrite set_ntp_server_opened by done.
    rewrite !vsystem_lookup_other by done.
    apply store_lookup_eq. }
  assert (lines ("# AUTOGENERATED BY cfgd v" +:+ VERSION +:+ nl +:+ "[Time]" +:+ nl
                 +:+ String.concat " " ("NTP =" :: server servers))
          = ["# AUTOGENERATED BY cfgd v" +:+ VERSION; "[Time]";
             String.concat " " ("NTP =" :: server servers)]) as Hlines.
  { rewrite <- (append_assoc "# AUTOGENERATED BY cfgd v" VERSION).
    rewrite lines_first by (by rewrite one_line_append, Hver).
    rewrite lines_first by done.
    by rewrite lines_one_line by (by apply one_line_concat). }
  rewrite Hlines. split; [done |]. split.
  - rewrite concat_spaced. reflexivity.
  - by intros ->.
Qed.

(** *** The authorized-keys renderer *)

(** C2 (amended).  For a user other than [root] and [netconfd],
    [set_ssh_keys] does nothing at all (no file is created or changed, no
    command is issued, and the function has no way to report an error)
    when the account is unknown to [getpwnam], and also when the key list
    is empty. *)
Theorem set_ssh_keys_no_op (name : string) (list : list auth_ssh_key) (w : world) :
  name <> "root" ->
  name <> "netconfd" ->
  getpwnam name = None \/ list = [] ->
  set_ssh_keys fopen_ok getpwnam name list w = w.
Proof.
  intros Hroot Hnetconfd Hcase.
  unfold set_ssh_keys, ssh_auth_file.
  apply String.eqb_neq in Hroot, Hnetconfd.
  rewrite Hroot, Hnetconfd.
  destruct Hcase as [Hpw | ->].
  - by rewrite Hpw.
  - destruct (getpwnam name) as [pw|]; [| done].
    by destruct (pw_dir pw).
Qed.

(** *** The interface renderer *)

Lemma foldl_fprintf {A : Type} (fmt : string) (args : A -> list arg)
      (l : list A) (f : FILE) :
  foldl (fun f x => fprintf f fmt (args x)) f l
  = {| f_path := f_path f;
       f_buf := f_buf f +:+ cat (map (fun x => format fmt (args x)) l) |}.
Proof. apply (foldl_fputs (fun x => format fmt (args x))). Qed.

Lemma write_iface_path (iface : interface) (f : FILE) :
  f_path (write_iface VERSION iface f) = f_path f.
Proof.
  unfold write_iface. rewrite !foldl_fprintf.
  by destruct (forwarding (ipv4 iface)), (forwarding (ipv6 iface)).
Qed.

Lemma gtb_max (a b : Z) : (if (a >? b)%Z then a else b) = Z.max a b.
Proof. destruct (Z.gtb_spec a b); lia. Qed.

(** The text begins with the header and the [Match] and [Link] sections;
    the addresses and the forwarding clause follow. *)
Lemma iface_text_sections (iface : interface) :
  iface_text VERSION iface
  = "# AUTOGENERATED BY cfgd v" +:+ VERSION +:+ nl
    +:+ "[Match]" +:+ nl
    +:+ "Name=" +:+ if_name iface +:+ nl
    +:+ "[Link]" +:+ nl
    +:+ "MTUBytes=" +:+ dec (Z.max (mtu (ipv4 iface)) (mtu (ipv6 iface))) +:+ nl
    +:+ "[Network]" +:+ nl
    +:+ "DHCP=" +:+ (if dhcp_enabled iface then "yes" else "no") +:+ nl
    +:+ cat (map address_line (addr (ipv4 iface)))
    +:+ cat (map address_line (addr (ipv6 iface)))
    +:+ match forwarding (ipv4 iface), forwarding (ipv6 iface) with
        | true, true => "IPForward=yes" +:+ nl
        | true, false => "IPForward=ipv4" +:+ nl
        | false, true => "IPForward=ipv6" +:+ nl
        | false, false => EmptyString
        end.
Proof.
  unfold iface_text, write_iface. rewrite !foldl_fprintf, gtb_max.
  unfold fprintf, fputs; cbn [f_path f_buf].
  change (fun x : ipaddr =>
            format ("Address=%s/%s" +:+ nl) [Str (address x); Str (value x)])
    with address_line.
  set (m := dec (Z.max (mtu (ipv4 iface)) (mtu (ipv6 iface)))).
  set (d := if dhcp_enabled iface then "yes" else "no").
  set (a4 := cat (map address_line (addr (ipv4 iface)))).
  set (a6 := cat (map address_line (addr (ipv6 iface)))).
  change (format _ [Str (_ident VERSION); Str (if_name iface); Int _; Str d])
    with ("# AUTOGENERATED BY " +:+ _ident VERSION +:+ nl +:+ "[Match]" +:+ nl
          +:+ "Name=" +:+ if_name iface +:+ nl +:+ "[Link]" +:+ nl
          +:+ "MTUBytes=" +:+ m +:+ nl +:+ "[Network]" +:+ nl
          +:+ "DHCP=" +:+ d +:+ nl).
  unfold _ident.
  destruct (forwarding (ipv4 iface)), (forwarding (ipv6 iface));
    cbn [andb f_buf f_path];
    rewrite ?append_empty_l, ?append_empty_r, ?append_assoc; reflexivity.
Qed.

(** Whether it finishes or returns early, the loop touches no file but
    those of its interfaces. *)
Lemma set_if_addr_loop_lookup_other
      (info : list interface) (w : world) (path : string) :
  path ∉ map systemd_cfg info ->
  files (flow_world (set_if_addr_loop VERSION fopen_ok info w)) !! path
  = files w !! path.
Proof.
  revert w; induction info as [|i info IH]; intros w Hnot; [done |].
  cbn [map] in Hnot. apply not_elem_of_cons in Hnot as [Hne Hnot].
  cbn [set_if_addr_loop]. unfold fopen.
  destruct (fopen_ok (systemd_cfg i)); [| done].
  rewrite IH by done. unfold fclose.
  rewrite write_iface_path. cbn [f_path].
  by rewrite !store_lookup_ne.
Qed.

Lemma set_if_addr_loop_app (before after : list interface) (w : world) :
  Forall (fun i => fopen_ok (systemd_cfg i) = true) before ->
  set_if_addr_loop VERSION fopen_ok (before ++ after) w
  = set_if_addr_loop VERSION fopen_ok after
      (foldl (fun w i => store (systemd_cfg i) (iface_text VERSION i)
                           (store (systemd_cfg i) EmptyString w))
             w before).
Proof.
  intros Hok. revert w.
  induction Hok as [|i before Hi _ IH]; intros w; [done |].
  cbn [app set_if_addr_loop foldl]. unfold fopen. rewrite Hi, IH.
  unfold fclose. by rewrite write_iface_path.
Qed.

Lemma set_if_addr_files (info : list interface) (w : world) :
  files (set_if_addr VERSION fopen_ok info w)
  = files (flow_world (set_if_addr_loop VERSION fopen_ok info (vsystem rm_network w))).
Proof.
  unfold set_if_addr.
  destruct (set_if_addr_loop VERSION fopen_ok info (vsystem rm_network w));
    [by rewrite vsystem_files_other | done].
Qed.

(** C1.  An interface is rendered when the loop of [set_if_addr] reaches
    it (the files of the interfaces before it could be opened) and its own
    file can be opened.  Its file, unless an interface after it has the
    same file name, then consists of the header, the [Match], [Link] and
    [Network] sections and the address lines, followed by the line
    [IPForward=yes] when both families forward, [IPForward=ipv4] when only
    IPv4 does, [IPForward=ipv6] when only IPv6 does, and by nothing at all
    when neither does: the text then ends with the last address line (or
    the [DHCP=] line). *)
Theorem set_if_addr_forwarding_clause
        (before after : list interface) (iface : interface) (w : world) :
  Forall (fun i => fopen_ok (systemd_cfg i) = true) before ->
  fopen_ok (systemd_cfg iface) = true ->
  systemd_cfg iface ∉ map systemd_cfg after ->
  files (set_if_addr VERSION fopen_ok (before ++ iface :: after) w)
    !! systemd_cfg iface
  = Some (("# AUTOGENERATED BY cfgd v" +:+ VERSION +:+ nl
           +:+ "[Match]" +:+ nl
           +:+ "Name=" +:+ if_name iface +:+ nl
           +:+ "[Link]" +:+ nl
           +:+ "MTUBytes="
           +:+ dec (if (mtu (ipv4 iface) >? mtu (ipv6 iface))%Z
                    then mtu (ipv4 iface) else mtu (ipv6 iface)) +:+ nl
           +:+ "[Network]" +:+ nl
           +:+ "DHCP=" +:+ (if dhcp_enabled iface then "yes" else "no") +:+ nl
           +:+ cat (map address_line (addr (ipv4 iface)))
           +:+ cat (map address_line (addr (ipv6 iface))))
          +:+ (if forwarding (ipv4 iface)
               then if forwarding (ipv6 iface)
                    then "IPForward=yes" +:+ nl
                    else "IPForward=ipv4" +:+ nl
               else if forwarding (ipv6 iface)
                    then "IPForward=ipv6" +:+ nl
                    else EmptyString)).
Proof.
  intros Hbefore Hok Hlast.
  rewrite set_if_addr_files, set_if_addr_loop_app by exact Hbefore.
  cbn [set_if_addr_loop]. unfold fopen. rewrite Hok.
  rewrite set_if_addr_loop_lookup_other by exact Hlast.
  unfold fclose. rewrite write_iface_path. cbn [f_path].
  rewrite store_lookup_eq. fold (iface_text VERSION iface).
  rewrite iface_text_sections, gtb_max.
  destruct (forwarding (ipv4 iface)), (forwarding (ipv6 iface));
    rewrite ?append_empty_r, ?append_assoc; reflexivity.
Qed.

Lemma write_iface_swap_mtu (iface : interface) (f : FILE) :
  write_iface VERSION (swap_mtu iface) f = write_iface VERSION iface f.
Proof.
  unfold write_iface.
  cbn [swap_mtu swap_mtu_family if_name dhcp_enabled ipv4 ipv6 mtu forwarding addr].
  by rewrite !gtb_max, Z.max_comm.
Qed.

Lemma systemd_cfg_swap_mtu (iface : interface) :
  systemd_cfg (swap_mtu iface) = systemd_cfg iface.
Proof. unfold systemd_cfg. cbn [swap_mtu if_name]. reflexivity. Qed.

Lemma set_if_addr_loop_swap_mtu (info : list interface) (w : world) :
  set_if_addr_loop VERSION fopen_ok (map swap_mtu info) w
  = set_if_addr_loop VERSION fopen_ok info w.
Proof.
  revert w; induction info as [|i info IH]; intros w; [done |].
  cbn [map set_if_addr_loop]. rewrite systemd_cfg_swap_mtu.
  destruct (fopen fopen_ok (systemd_cfg i) w) as [[fout w']|]; [| done].
  by rewrite write_iface_swap_mtu, IH.
Qed.

(** C6.  Exchanging the IPv4 and the IPv6 MTU of the interfaces changes
    nothing of what [set_if_addr] does: the text of every file is the
    same, and its [MTUBytes=] line, under [[Link]], carries the larger of
    the two values (either one when they are equal). *)
Theorem set_if_addr_mtu_swap (info : list interface) (w : world) :
  set_if_addr VERSION fopen_ok (map swap_mtu info) w
  = set_if_addr VERSION fopen_ok info w
  /\ forall iface : interface,
       iface_text VERSION (swap_mtu iface) = iface_text VERSION iface
       /\ exists rest : string,
            iface_text VERSION iface
            = "# AUTOGENERATED BY cfgd v" +:+ VERSION +:+ nl
              +:+ "[Match]" +:+ nl
              +:+ "Name=" +:+ if_name iface +:+ nl
              +:+ "[Link]" +:+ nl
              +:+ "MTUBytes="
              +:+ dec (Z.max (mtu (ipv4 iface)) (mtu (ipv6 iface))) +:+ nl
              +:+ "[Network]" +:+ nl +:+ rest.
Proof.
  split.
  - unfold set_if_addr. by rewrite set_if_addr_loop_swap_mtu.
  - intros iface. split.
    + unfold iface_text.
      by rewrite systemd_cfg_swap_mtu, write_iface_swap_mtu.
    + rewrite iface_text_sections. eexists. reflexivity.
Qed.

(** *** The static-neighbour renderer *)

Lemma neigh_replace_command (iface : interface) (ip : ipaddr) (w : world) :
  neigh_replace iface w ip = vsystem (neigh_command iface ip) w.
Proof. unfold neigh_replace, vasystem, neigh_command. reflexivity. Qed.

Lemma issued_neigh_replace (iface : interface) (l : list ipaddr) (w : world) :
  issued (foldl (neigh_replace iface) w l)
  = issued w ++ map (neigh_command iface) l.
Proof.
  revert w; induction l as [|ip l IH]; intros w.
  - cbn [foldl map]. symmetry. apply app_nil_r.
  - cbn [foldl map]. rewrite IH, neigh_replace_command, issued_vsystem.
    rewrite <- app_assoc. reflexivity.
Qed.

Lemma issued_neigh_loop (info : list interface) (w : world) :
  issued (foldl (fun w iface =>
                   let w := foldl (neigh_replace iface) w (neigh (ipv4 iface)) in
                   foldl (neigh_replace iface) w (neigh (ipv6 iface)))
                w info)
  = issued w
    ++ flat_map (fun iface => map (neigh_command iface) (neigh (ipv4 iface))
                              ++ map (neigh_command iface) (neigh (ipv6 iface)))
                info.
Proof.
  revert w; induction info as [|iface info IH]; intros w.
  - simpl. by rewrite app_nil_r.
  - cbn [foldl flat_map]. rewrite IH. cbn zeta.
    rewrite !issued_neigh_replace. by rewrite <- !app_assoc.
Qed.

Lemma neigh_command_prefix (iface : interface) (ip : ipaddr) :
  starts_with "ip neigh replace " (neigh_command iface ip) = true.
Proof. reflexivity. Qed.

Lemma neigh_command_not_flush (iface : interface) (ip : ipaddr) :
  neigh_command iface ip <> "ip neigh flush nud permanent".
Proof.
  intros Heq. pose proof (neigh_command_prefix iface ip) as Hpre.
  by rewrite Heq in Hpre.
Qed.

(** C8.  The commands of [set_if_neigh] are the flush of the permanent
    neighbour entries followed by the replace commands, interface after
    interface in input order and, for each interface, its IPv4 entries
    before its IPv6 entries.  The flush is issued once, and everything
    after it is a replace command. *)
Theorem set_if_neigh_flush_first (info : list interface) (w : world) :
  exists replaces : list string,
    issued (set_if_neigh info w)
    = issued w ++ "ip neigh flush nud permanent" :: replaces
    /\ replaces
       = flat_map (fun iface => map (neigh_command iface) (neigh (ipv4 iface))
                                ++ map (neigh_command iface) (neigh (ipv6 iface)))
                  info
    /\ Forall (fun cmd => starts_with "ip neigh replace " cmd = true) replaces
    /\ count_occ string_dec ("ip neigh flush nud permanent" :: replaces)
                 "ip neigh flush nud permanent" = 1.
Proof.
  eexists. split; [| split; [reflexivity |]].
  - unfold set_if_neigh. rewrite issued_neigh_loop, issued_vsystem.
    by rewrite <- app_assoc.
  - assert (Forall (fun cmd => starts_with "ip neigh replace " cmd = true)
              (flat_map (fun iface =>
                           map (neigh_command iface) (neigh (ipv4 iface))
                           ++ map (neigh_command iface) (neigh (ipv6 iface)))
                        info)) as Hall.
    { apply List.Forall_forall. intros cmd Hin.
      apply in_flat_map in Hin as [iface [_ Hin]].
      apply in_app_or in Hin.
      destruct Hin as [Hin | Hin]; apply in_map_iff in Hin as [ip [<- _]];
        apply neigh_command_prefix. }
    split; [done |].
    rewrite count_occ_cons_eq by done. f_equal.
    apply count_occ_not_In. intros Hin.
    rewrite List.Forall_forall in Hall. by apply Hall in Hin.
Qed.

(** *** Passes are scripted *)

Ltac script_with ops :=
  exists ops; intros ?; cbv zeta; unfold vasystem, fclose, run;
  cbn [foldl run_op]; reflexivity.



Lemma scripted_write_keys (path : string) (list : list auth_ssh_key) :
  scripted (fun w => match fopen fopen_ok path w with
                     | None => w
                     | Some (fout, w) =>
                         fclose (foldl (fun f k =>
                                   fprintf f ("%s %s %s" +:+ nl)
                                     [Str (key_algo k); Str (key_data k);
                                      Str (key_name k)]) fout list) w
                     end).
Proof.
  unfold fopen. destruct (fopen_ok path); [| apply scripted_skip].
  set (fout := foldl _ _ list).
  script_with [Put path EmptyString; Put (f_path fout) (f_buf fout)].
Qed.

Lemma scripted_set_ssh_keys (name : string) (list : list auth_ssh_key) :
  scripted (set_ssh_keys fopen_ok getpwnam name list).
Proof.
  unfold set_ssh_keys, ssh_auth_file.
  destruct (String.eqb name "root"); [apply scripted_write_keys |].
  destruct (String.eqb name "netconfd"); [apply scripted_write_keys |].
  destruct (getpwnam name) as [pw|]; [| apply scripted_skip].
  destruct (pw_dir pw) as [dir|]; [| apply scripted_skip].
  destruct (Nat.eqb (length list) 0); [apply scripted_skip |].
  apply (scripted_seq
           (vasystem "mkdir -p %s/.ssh" [Str dir])
           (fun w => match fopen fopen_ok (format "%s/.ssh/authorized_keys" [Str dir]) w with
                     | None => w
                     | Some (fout, w) =>
                         fclose (foldl (fun f k =>
                                   fprintf f ("%s %s %s" +:+ nl)
                                     [Str (key_algo k); Str (key_data k);
                                      Str (key_name k)]) fout list) w
                     end)).
  - apply scripted_vasystem.
  - apply scripted_write_keys.
Qed.

Lemma scripted_set_authentication (auth : list auth_user) :
  scripted (set_authentication fopen_ok getpwnam auth).
Proof.
  unfold set_authentication.
  apply (scripted_foldl (fun w u => set_ssh_keys fopen_ok getpwnam
                                      (user_name u) (user_ssh u) w)).
  intros u. apply scripted_set_ssh_keys.
Qed.




(** *** The resolver renderer *)

Lemma set_dns_opened (search servers : string_list) (w : world) :
  fopen_ok dns_conf = true ->
  set_dns VERSION fopen_ok search servers w
  = vsystem "systemctl reload-or-restart systemd-resolved"
      (store dns_conf
         ("# AUTOGENERATED BY cfgd v" +:+ VERSION +:+ nl +:+ "[Resolve]" +:+ nl
          +:+ String.concat " " ("DNS =" :: servers) +:+ nl
          +:+ String.concat " " ("Domains =" :: search))
         (store dns_conf EmptyString w)).
Proof.
  intros Hok. unfold set_dns, fopen. rewrite Hok. cbv zeta.
  rewrite !foldl_spaced, !concat_spaced.
  unfold fclose, fputs, fprintf; cbn [f_path f_buf].
  do 2 f_equal.
  change (format ("# AUTOGENERATED BY %s" +:+ nl +:+ "[Resolve]") [Str (_ident VERSION)])
    with ("# AUTOGENERATED BY " +:+ _ident VERSION +:+ nl +:+ "[Resolve]").
  unfold _ident, fputs; cbn [f_path f_buf].
  rewrite ?append_empty_l, !append_assoc. reflexivity.
Qed.

(** The file [set_dns] writes, for strings free of newlines: the header,
    [[Resolve]], a [DNS =] line with the name servers and a [Domains =] line
    with the search domains, each list in input order with single spaces. *)
Theorem set_dns_lines (search servers : string_list) (w : world) :
  fopen_ok dns_conf = true ->
  one_line VERSION = true ->
  Forall (fun s => one_line s = true) servers ->
  Forall (fun s => one_line s = true) search ->
  exists content : string,
    files (set_dns VERSION fopen_ok search servers w) !! dns_conf = Some content
    /\ lines content
       = ["# AUTOGENERATED BY cfgd v" +:+ VERSION; "[Resolve]";
          String.concat " " ("DNS =" :: servers);
          String.concat " " ("Domains =" :: search)].
Proof.
  intros Hok Hver Hservers Hsearch.
  exists ("# AUTOGENERATED BY cfgd v" +:+ VERSION +:+ nl +:+ "[Resolve]" +:+ nl
          +:+ String.concat " " ("DNS =" :: servers) +:+ nl
          +:+ String.concat " " ("Domains =" :: search)).
  split.
  - rewrite set_dns_opened by exact Hok.
    rewrite vsystem_lookup_other by reflexivity.
    apply store_lookup_eq.
  - rewrite <- (append_assoc "# AUTOGENERATED BY cfgd v" VERSION).
    rewrite lines_first by (rewrite one_line_append, Hver; reflexivity).
    rewrite lines_first by reflexivity.
    rewrite lines_first by (apply one_line_concat; [reflexivity | exact Hservers]).
    rewrite lines_one_line by (apply one_line_concat; [reflexivity | exact Hsearch]).
    reflexivity.
Qed.

(** [set_dns] either fails to open its file and changes nothing, or issues
    exactly one command, the reload-or-restart of the resolver. *)
Theorem set_dns_outcome (search servers : string_list) (w : world) :
  if fopen_ok dns_conf
  then issued (set_dns VERSION fopen_ok search servers w)
       = issued w ++ ["systemctl reload-or-restart systemd-resolved"]
  else set_dns VERSION fopen_ok search servers w = w.
Proof.
  destruct (fopen_ok dns_conf) eqn:Hok.
  - rewrite set_dns_opened by exact Hok. rewrite issued_vsystem. reflexivity.
  - unfold set_dns, fopen. rewrite Hok. reflexivity.
Qed.

(** Whatever happens, [set_ntp_server] leaves every file other than its own
    as it was. *)
Theorem set_ntp_server_other_files
        (servers : ntp_servers) (w : world) (path : string) :
  path <> ntp_conf ->
  files (set_ntp_server VERSION fopen_ok servers w) !! path = files w !! path.
Proof.
  intros Hne. destruct (fopen_ok ntp_conf) eqn:Hok.
  - rewrite set_ntp_server_opened by exact Hok.
    rewrite vsystem_files_other by (destruct (enabled servers); reflexivity).
    rewrite vsystem_files_other by reflexivity.
    rewrite !store_lookup_ne by congruence. reflexivity.
  - unfold set_ntp_server, fopen. rewrite Hok. reflexivity.
Qed.

(** Whatever happens, [set_dns] leaves every file other than its own as it
    was. *)
Theorem set_dns_other_files
        (search servers : string_list) (w : world) (path : string) :
  path <> dns_conf ->
  files (set_dns VERSION fopen_ok search servers w) !! path = files w !! path.
Proof.
  intros Hne. destruct (fopen_ok dns_conf) eqn:Hok.
  - rewrite set_dns_opened by exact Hok.
    rewrite vsystem_files_other by reflexivity.
    rewrite !store_lookup_ne by congruence. reflexivity.
  - unfold set_dns, fopen. rewrite Hok. reflexivity.
Qed.

(** *** The authorized-keys renderer, where it writes *)

Lemma store_store (path c1 c2 : string) (w : world) :
  store path c2 (store path c1 w) = store path c2 w.
Proof. unfold store; cbn [files issued]. by rewrite insert_insert_eq. Qed.

Lemma clip_cons (n : nat) (c : ascii) (s : string) :
  clip (S n) (String c s) = String c (clip n s).
Proof. reflexivity. Qed.

Lemma mkdir_command_not_rm (dir : string) :
  String.eqb (mkdir_command dir) rm_network = false.
Proof.
  unfold mkdir_command, snprintf.
  change (format "mkdir -p %s/.ssh" [Str dir])
    with (String "m" ("kdir -p " +:+ dir +:+ "/.ssh")).
  change (1024 - 1) with (S 1022). rewrite clip_cons.
  reflexivity.
Qed.

Lemma vasystem_mkdir (dir : string) (w : world) :
  vasystem "mkdir -p %s/.ssh" [Str dir] w = vsystem (mkdir_command dir) w.
Proof. unfold vasystem, mkdir_command. reflexivity. Qed.

Lemma write_keys_world (path : string) (list : list auth_ssh_key) (w : world) :
  match fopen fopen_ok path w with
  | None => w
  | Some (fout, w) =>
      fclose (foldl (fun f k =>
                fprintf f ("%s %s %s" +:+ nl)
                  [Str (key_algo k); Str (key_data k); Str (key_name k)])
              fout list) w
  end
  = if fopen_ok path then store path (cat (map key_line list)) w else w.
Proof.
  unfold fopen. destruct (fopen_ok path); [| reflexivity].
  rewrite (foldl_fprintf ("%s %s %s" +:+ nl)
             (fun k => [Str (key_algo k); Str (key_data k); Str (key_name k)])).
  unfold fclose; cbn [f_path f_buf].
  change (fun x : auth_ssh_key =>
            format ("%s %s %s" +:+ nl)
                   [Str (key_algo x); Str (key_data x); Str (key_name x)])
    with key_line.
  rewrite append_empty_l. apply store_store.
Qed.

(** [set_ssh_keys] in one equation: the commands of [auth_commands] are
    run, then the file of [auth_path], if there is one and it opens, is
    replaced by the key lines. *)
Lemma set_ssh_keys_world (u : auth_user) (w : world) :
  set_ssh_keys fopen_ok getpwnam (user_name u) (user_ssh u) w
  = match auth_path getpwnam u with
    | Some path =>
        if fopen_ok path
        then store path (cat (map key_line (user_ssh u)))
                   (foldl (fun w c => vsystem c w) w (auth_commands getpwnam u))
        else foldl (fun w c => vsystem c w) w (auth_commands getpwnam u)
    | None => foldl (fun w c => vsystem c w) w (auth_commands getpwnam u)
    end.
Proof.
  unfold set_ssh_keys, ssh_auth_file, auth_path, auth_commands.
  destruct (String.eqb (user_name u) "root"); [apply write_keys_world |].
  destruct (String.eqb (user_name u) "netconfd"); [apply write_keys_world |].
  destruct (getpwnam (user_name u)) as [[[dir|]]|]; try reflexivity.
  destruct (user_ssh u) as [|k keys]; [reflexivity |].
  change (Nat.eqb (length (k :: keys)) 0) with false.
  set (list := k :: keys).
  cbn [pw_dir foldl].
  change (format "%s/.ssh/authorized_keys" [Str dir])
    with (dir +:+ "/.ssh/authorized_keys").
  rewrite vasystem_mkdir.
  apply write_keys_world.
Qed.

(** For [root] and for [netconfd] there is no account lookup and no
    command: the fixed file is replaced by one line per key, [algo data
    name], in input order; or nothing changes when it cannot be opened. *)
Theorem set_ssh_keys_fixed_user (list : list auth_ssh_key) (w : world) :
  set_ssh_keys fopen_ok getpwnam "root" list w
  = (if fopen_ok "/home/root/.ssh/authorized_keys"
     then store "/home/root/.ssh/authorized_keys" (cat (map key_line list)) w
     else w)
  /\ set_ssh_keys fopen_ok getpwnam "netconfd" list w
     = (if fopen_ok "/etc/netconf/authorized_keys"
        then store "/etc/netconf/authorized_keys" (cat (map key_line list)) w
        else w).
Proof.
  split.
  - apply (set_ssh_keys_world
             {| user_name := "root"; user_password := EmptyString; user_ssh := list |}).
  - apply (set_ssh_keys_world
             {| user_name := "netconfd"; user_password := EmptyString;
                user_ssh := list |}).
Qed.


(** *** Authentication *)

Lemma issued_foldl_vsystem (cmds : list string) (w : world) :
  issued (foldl (fun w c => vsystem c w) w cmds) = issued w ++ cmds.
Proof.
  revert w; induction cmds as [|c cmds IH]; intros w.
  - cbn [foldl]. symmetry. apply app_nil_r.
  - cbn [foldl]. rewrite IH, issued_vsystem, <- app_assoc. reflexivity.
Qed.

Lemma auth_commands_files (u : auth_user) (w : world) :
  files (foldl (fun w c => vsystem c w) w (auth_commands getpwnam u)) = files w.
Proof.
  unfold auth_commands.
  destruct (String.eqb (user_name u) "root"); [reflexivity |].
  destruct (String.eqb (user_name u) "netconfd"); [reflexivity |].
  destruct (getpwnam (user_name u)) as [[[dir|]]|]; try reflexivity.
  destruct (user_ssh u); [reflexivity |].
  cbn [foldl]. apply vsystem_files_other, mkdir_command_not_rm.
Qed.

Lemma set_ssh_keys_issued (u : auth_user) (w : world) :
  issued (set_ssh_keys fopen_ok getpwnam (user_name u) (user_ssh u) w)
  = issued w ++ auth_commands getpwnam u.
Proof.
  rewrite set_ssh_keys_world.
  destruct (auth_path getpwnam u) as [path|]; [destruct (fopen_ok path) |];
    cbn [store issued]; apply issued_foldl_vsystem.
Qed.

Lemma set_ssh_keys_lookup_other (u : auth_user) (w : world) (path : string) :
  auth_path getpwnam u <> Some path ->
  files (set_ssh_keys fopen_ok getpwnam (user_name u) (user_ssh u) w) !! path
  = files w !! path.
Proof.
  intros Hne. rewrite set_ssh_keys_world.
  destruct (auth_path getpwnam u) as [p|]; [destruct (fopen_ok p) |].
  - rewrite store_lookup_ne by congruence. by rewrite auth_commands_files.
  - by rewrite auth_commands_files.
  - by rewrite auth_commands_files.
Qed.

Lemma set_authentication_lookup_other
      (auth : list auth_user) (w : world) (path : string) :
  Forall (fun u => auth_path getpwnam u <> Some path) auth ->
  files (set_authentication fopen_ok getpwnam auth w) !! path = files w !! path.
Proof.
  intros Hall. revert w. unfold set_authentication.
  induction Hall as [|u auth Hu _ IH]; intros w; [reflexivity |].
  cbn [foldl]. rewrite IH. by apply set_ssh_keys_lookup_other.
Qed.

(** The commands [set_authentication] issues are the [mkdir] commands of
    the users, in the order of the users; no command is issued for [root],
    for [netconfd], for an unknown account, for an account without home
    directory or for a user without keys. *)
Theorem set_authentication_commands (auth : list auth_user) (w : world) :
  issued (set_authentication fopen_ok getpwnam auth w)
  = issued w ++ flat_map (auth_commands getpwnam) auth.
Proof.
  revert w. unfold set_authentication.
  induction auth as [|u auth IH]; intros w.
  - cbn [foldl flat_map]. symmetry. apply app_nil_r.
  - cbn [foldl flat_map]. rewrite IH, set_ssh_keys_issued, <- app_assoc.
    reflexivity.
Qed.

(** After [set_authentication], the authorized-keys file of a user holds
    that user's key lines, provided it could be opened and no later user of
    the list has the same file: of two entries for one file the later one
    wins. *)
Theorem set_authentication_file
        (before after : list auth_user) (u : auth_user) (path : string) (w : world) :
  auth_path getpwnam u = Some path ->
  fopen_ok path = true ->
  Forall (fun v => auth_path getpwnam v <> Some path) after ->
  files (set_authentication fopen_ok getpwnam (before ++ u :: after) w) !! path
  = Some (cat (map key_line (user_ssh u))).
Proof.
  intros Hpath Hok Hafter.
  unfold set_authentication. rewrite foldl_app. cbn [foldl].
  fold (set_authentication fopen_ok getpwnam before w).
  fold (set_authentication fopen_ok getpwnam after
          (set_ssh_keys fopen_ok getpwnam (user_name u) (user_ssh u)
             (set_authentication fopen_ok getpwnam before w))).
  rewrite set_authentication_lookup_other by exact Hafter.
  rewrite set_ssh_keys_world, Hpath, Hok.
  apply store_lookup_eq.
Qed.

(** *** The interface renderer: commands, failures, other files *)

Lemma set_if_addr_loop_flow (info : list interface) (w : world) :
  exists w' : world,
    set_if_addr_loop VERSION fopen_ok info w
    = (if forallb (fun i => fopen_ok (systemd_cfg i)) info
       then Next w' else Return w')
    /\ issued w' = issued w.
Proof.
  revert w; induction info as [|i info IH]; intros w.
  - exists w. split; reflexivity.
  - cbn [set_if_addr_loop forallb]. unfold fopen.
    destruct (fopen_ok (systemd_cfg i)); cbn [andb].
    + destruct (IH (fclose (write_iface VERSION i
                              {| f_path := systemd_cfg i; f_buf := EmptyString |})
                           (store (systemd_cfg i) EmptyString w)))
        as [w' [Hloop Hissued]].
      exists w'. split; [exact Hloop | exact Hissued].
    + exists w. split; reflexivity.
Qed.

(** The commands of [set_if_addr]: the [rm] of the old files first; then,
    if and only if every file of the list could be opened, one
    reload-or-restart of the network service, whatever the number of
    interfaces.  A failed open leaves the service without reload. *)
Theorem set_if_addr_commands (info : list interface) (w : world) :
  issued (set_if_addr VERSION fopen_ok info w)
  = issued w
    ++ rm_network
       :: (if forallb (fun i => fopen_ok (systemd_cfg i)) info
           then ["systemctl reload-or-restart systemd-networkd"] else []).
Proof.
  unfold set_if_addr. cbv zeta.
  destruct (set_if_addr_loop_flow info (vsystem rm_network w))
    as [w' [Hloop Hissued]].
  rewrite Hloop. rewrite issued_vsystem in Hissued.
  destruct (forallb (fun i => fopen_ok (systemd_cfg i)) info).
  - rewrite issued_vsystem, Hissued, <- app_assoc. reflexivity.
  - exact Hissued.
Qed.

(** When the file of an interface cannot be opened, [set_if_addr] stops
    there: the world is the one a run on the interfaces before it gives,
    short of the reload.  The files written so far stay, nothing is written
    for the interfaces after it. *)
Theorem set_if_addr_open_failure
        (before after : list interface) (bad : interface) (w : world) :
  Forall (fun i => fopen_ok (systemd_cfg i) = true) before ->
  fopen_ok (systemd_cfg bad) = false ->
  vsystem "systemctl reload-or-restart systemd-networkd"
          (set_if_addr VERSION fopen_ok (before ++ bad :: after) w)
  = set_if_addr VERSION fopen_ok before w.
Proof.
  intros Hbefore Hbad. unfold set_if_addr. cbv zeta.
  rewrite set_if_addr_loop_app by exact Hbefore.
  rewrite <- (app_nil_r before) at 2.
  rewrite set_if_addr_loop_app by exact Hbefore.
  cbn [set_if_addr_loop]. unfold fopen. rewrite Hbad. reflexivity.
Qed.

(** [set_if_addr] changes no file other than those the glob of its [rm]
    matches and those of its interfaces; so a file the glob does not match
    survives any run that does not render it. *)
Theorem set_if_addr_other_files
        (info : list interface) (w : world) (path : string) :
  glob_network path = false ->
  path ∉ map systemd_cfg info ->
  files (set_if_addr VERSION fopen_ok info w) !! path = files w !! path.
Proof.
  intros Hglob Hnot.
  rewrite set_if_addr_files, set_if_addr_loop_lookup_other by exact Hnot.
  apply vsystem_lookup_other, Hglob.
Qed.

(** The whole text of the file of a rendered interface: header, [Match]
    with the name, [Link] with the MTU, [Network] with [DHCP=yes] or
    [DHCP=no], one [Address=ip/prefix] line per IPv4 address and then per
    IPv6 address, each family in input order, and the forwarding clause. *)
Theorem set_if_addr_file_text
        (before after : list interface) (iface : interface) (w : world) :
  Forall (fun i => fopen_ok (systemd_cfg i) = true) before ->
  fopen_ok (systemd_cfg iface) = true ->
  systemd_cfg iface ∉ map systemd_cfg after ->
  files (set_if_addr VERSION fopen_ok (before ++ iface :: after) w)
    !! systemd_cfg iface
  = Some ("# AUTOGENERATED BY cfgd v" +:+ VERSION +:+ nl
          +:+ "[Match]" +:+ nl
          +:+ "Name=" +:+ if_name iface +:+ nl
          +:+ "[Link]" +:+ nl
          +:+ "MTUBytes=" +:+ dec (Z.max (mtu (ipv4 iface)) (mtu (ipv6 iface))) +:+ nl
          +:+ "[Network]" +:+ nl
          +:+ "DHCP=" +:+ (if dhcp_enabled iface then "yes" else "no") +:+ nl
          +:+ cat (map address_line (addr (ipv4 iface) ++ addr (ipv6 iface)))
          +:+ match forwarding (ipv4 iface), forwarding (ipv6 iface) with
              | true, true => "IPForward=yes" +:+ nl
              | true, false => "IPForward=ipv4" +:+ nl
              | false, true => "IPForward=ipv6" +:+ nl
              | false, false => EmptyString
              end).
Proof.
  intros Hbefore Hok Hlast.
  rewrite set_if_addr_files, set_if_addr_loop_app by exact Hbefore.
  cbn [set_if_addr_loop]. unfold fopen. rewrite Hok.
  rewrite set_if_addr_loop_lookup_other by exact Hlast.
  unfold fclose. rewrite write_iface_path. cbn [f_path].
  rewrite store_lookup_eq. fold (iface_text VERSION iface).
  rewrite iface_text_sections, map_app, cat_app, !append_assoc.
  reflexivity.
Qed.

(** *** The static-neighbour renderer and files *)

Lemma neigh_command_not_rm (iface : interface) (ip : ipaddr) :
  String.eqb (neigh_command iface ip) rm_network = false.
Proof.
  apply String.eqb_neq. intros Heq.
  pose proof (neigh_command_prefix iface ip) as Hpre.
  rewrite Heq in Hpre. discriminate Hpre.
Qed.

Lemma files_neigh_replace (iface : interface) (l : list ipaddr) (w : world) :
  files (foldl (neigh_replace iface) w l) = files w.
Proof.
  revert w; induction l as [|ip l IH]; intros w; [reflexivity |].
  cbn [foldl]. rewrite IH, neigh_replace_command.
  apply vsystem_files_other, neigh_command_not_rm.
Qed.

(** When its commands are what their template says (no interface name,
    address or hardware address brings in shell syntax), [set_if_neigh]
    changes no file: it opens none, and the flush and the replace commands
    leave regular files alone. *)
Theorem set_if_neigh_files (info : list interface) (w : world) :
  forallb quiet_command (emitted (set_if_neigh info) w) = true ->
  files (set_if_neigh info w) = files w.
Proof.
  intros _. unfold set_if_neigh. cbv zeta.
  transitivity (files (vsystem "ip neigh flush nud permanent" w));
    [| apply vsystem_files_other; reflexivity].
  generalize (vsystem "ip neigh flush nud permanent" w) as w'.
  induction info as [|iface info IH]; intros w'; [reflexivity |].
  cbn [foldl]. rewrite IH. cbv zeta. by rewrite !files_neigh_replace.
Qed.

End Facts.

(** ** Signals and options *)

(** Starting from [LOG_INFO], the level [main] sets, the log level after
    [n] deliveries of [SIGUSR2] is [LOG_INFO] for even [n] and [LOG_DEBUG]
    for odd [n]; nothing else of the process changes. *)
Theorem sig_usr2_toggles (n : nat) (p : process) :
  logx_level p = LOG_INFO ->
  logx_level (Nat.iter n sig_usr2 p) = (if Nat.even n then LOG_INFO else LOG_DEBUG)
  /\ log_remote (Nat.iter n sig_usr2 p) = log_remote p
  /\ stdout (Nat.iter n sig_usr2 p) = stdout p
  /\ stderr (Nat.iter n sig_usr2 p) = stderr p.
Proof.
  intros Hlevel. induction n as [|n [IHlevel IHrest]].
  - repeat split. exact Hlevel.
  - change (Nat.iter (S n) sig_usr2 p) with (sig_usr2 (Nat.iter n sig_usr2 p)).
    split; [| exact IHrest].
    unfold sig_usr2 at 1; cbn [logx_level]. rewrite IHlevel, Nat.even_succ.
    rewrite <- Nat.negb_even. by destruct (Nat.even n).
Qed.

Lemma option_loop_passes
      (inet_aton : string -> option string)
      (opts rest : list (Z * string)) (p : process) :
  Forall (fun o => passes inet_aton o = true) opts ->
  exists q : process,
    option_loop inet_aton (opts ++ rest) p = option_loop inet_aton rest q
    /\ logx_level q
       = (if existsb (fun o => Z.eqb o.1 (char_code "x")) opts
          then LOG_DEBUG else logx_level p)
    /\ log_remote q
       = foldl (fun r o => if Z.eqb o.1 (char_code "l") then inet_aton o.2 else r)
               (log_remote p) opts
    /\ stderr q = stderr p
    /\ stdout q = stdout p ++ unknown_lines opts.
Proof.
  intros Hall. revert p.
  induction Hall as [|[c optarg] opts Ho _ IH]; intros p.
  - exists p. repeat split. cbn [unknown_lines flat_map]. by rewrite app_nil_r.
  - unfold passes in Ho. cbn [fst snd] in Ho.
    apply andb_true_iff in Ho as [Ho Hl].
    apply andb_true_iff in Ho as [Hend Hh].
    apply negb_true_iff in Hend, Hh.
    cbn [app option_loop existsb foldl fst snd unknown_lines flat_map].
    fold (unknown_lines opts). rewrite Hend, Hh.
    destruct (Z.eqb_spec c (char_code "l")) as [-> | Hnl].
    + cbn [negb orb] in Hl. apply bool_decide_eq_true in Hl as [a Ha].
      rewrite Ha.
      destruct (IH {| logx_level := logx_level p; log_remote := Some a;
                      stdout := stdout p; stderr := stderr p |})
        as [q [Hloop [Hlevel [Hremote [Herr Hout]]]]].
      exists q. cbn [orb app].
      split; [exact Hloop |]. split; [exact Hlevel |]. split; [exact Hremote |].
      split; [exact Herr | exact Hout].
    + destruct (Z.eqb_spec c (char_code "x")) as [-> | Hnx].
      * destruct (IH {| logx_level := LOG_DEBUG; log_remote := log_remote p;
                        stdout := stdout p; stderr := stderr p |})
          as [q [Hloop [Hlevel [Hremote [Herr Hout]]]]].
        exists q. cbn [orb app].
        split; [exact Hloop |]. split.
        { rewrite Hlevel. cbn [logx_level]. by destruct (existsb _ opts). }
        split; [exact Hremote |]. split; [exact Herr | exact Hout].
      * destruct (IH {| logx_level := logx_level p; log_remote := log_remote p;
                        stdout := stdout p ++ [unknown_code_line c];
                        stderr := stderr p |})
          as [q [Hloop [Hlevel [Hremote [Herr Hout]]]]].
        exists q. cbn [orb app].
        split; [exact Hloop |]. split; [exact Hlevel |]. split; [exact Hremote |].
        split; [exact Herr |].
        rewrite Hout. cbn [stdout]. by rewrite <- app_assoc.
Qed.

(** When no option asks for help and every [-l] address parses, start-up
    goes on: the log level is [LOG_DEBUG] if [-x] was given and [LOG_INFO]
    otherwise, the remote log address is that of the last [-l], and what
    [main] has printed on the output is one line for each code the
    [switch] does not know, in order; such codes do not stop start-up. *)
Theorem main_options_started
        (inet_aton : string -> option string) (opts : list (Z * string)) :
  Forall (fun o => passes inet_aton o = true) opts ->
  exists p : process,
    main_options inet_aton opts = Started p
    /\ logx_level p
       = (if existsb (fun o => Z.eqb o.1 (char_code "x")) opts
          then LOG_DEBUG else LOG_INFO)
    /\ log_remote p = last_remote inet_aton opts
    /\ stdout p = unknown_lines opts.
Proof.
  intros Hall. unfold main_options.
  destruct (option_loop_passes inet_aton opts []
              {| logx_level := LOG_INFO; log_remote := None;
                 stdout := []; stderr := [] |} Hall)
    as [q [Hloop [Hlevel [Hremote [_ Hout]]]]].
  rewrite app_nil_r in Hloop.
  exists q. split; [exact Hloop |]. split; [exact Hlevel |].
  split; [exact Hremote | exact Hout].
Qed.

(** [-h] prints the usage text and exits with success, whatever follows it
    on the command line, provided no earlier option has ended the loop. *)
Theorem main_options_help
        (inet_aton : string -> option string)
        (before after : list (Z * string)) (optarg : string) :
  Forall (fun o => passes inet_aton o = true) before ->
  exists p : process,
    main_options inet_aton (before ++ (char_code "h", optarg) :: after)
    = Exited EXIT_SUCCESS p
    /\ last (stdout p) = Some usage_text
    /\ stderr p = [].
Proof.
  intros Hall. unfold main_options.
  destruct (option_loop_passes inet_aton before ((char_code "h", optarg) :: after)
              {| logx_level := LOG_INFO; log_remote := None;
                 stdout := []; stderr := [] |} Hall)
    as [q [Hloop [_ [_ [Herr _]]]]].
  rewrite Hloop. cbn [option_loop].
  change (Z.eqb (char_code "h") (-1)) with false.
  change (Z.eqb (char_code "h") (char_code "h")) with true.
  cbv beta iota. eexists. split; [reflexivity |].
  cbn [stdout stderr]. split; [apply last_snoc | exact Herr].
Qed.

(** A [-l] whose address [inet_aton] rejects ends the process with
    [EXIT_FAILURE] and the diagnostic on the error stream; options after it
    are not looked at. *)
Theorem main_options_invalid_address
        (inet_aton : string -> option string)
        (before after : list (Z * string)) (optarg : string) :
  Forall (fun o => passes inet_aton o = true) before ->
  inet_aton optarg = None ->
  exists p : process,
    main_options inet_aton (before ++ (char_code "l", optarg) :: after)
    = Exited EXIT_FAILURE p
    /\ stderr p = ["Invalid IP address: '" +:+ optarg +:+ "'" +:+ nl].
Proof.
  intros Hall Hbad. unfold main_options.
  destruct (option_loop_passes inet_aton before ((char_code "l", optarg) :: after)
              {| logx_level := LOG_INFO; log_remote := None;
                 stdout := []; stderr := [] |} Hall)
    as [q [Hloop [_ [_ [Herr _]]]]].
  rewrite Hloop. cbn [option_loop].
  change (Z.eqb (char_code "l") (-1)) with false.
  change (Z.eqb (char_code "l") (char_code "h")) with false.
  change (Z.eqb (char_code "l") (char_code "l")) with true.
  cbv beta iota. rewrite Hbad.
  eexists. split; [reflexivity |].
  cbn [stderr]. rewrite Herr. reflexivity.
Qed.

(** ** Passes applied twice *)








(** On a system whose opens do not depend on what has run, the pass is the
    renderers of the source applied in order. *)
Lemma reconcile_os_static
      (VERSION : string) (fopen_ok : string -> bool)
      (getpwnam : string -> option passwd) (order : list domain)
      (s : ConfigSnapshot) (w : world) :
  reconcile_os VERSION (fun _ => fopen_ok) getpwnam order s w
  = foldl (fun w d =>
             match d with
             | NtpDomain => set_ntp_server VERSION fopen_ok (ntp s) w
             | DnsDomain => set_dns VERSION fopen_ok (dns_search s) (dns_servers s) w
             | AddrDomain => set_if_addr VERSION fopen_ok (interfaces s) w
             | NeighDomain => set_if_neigh (interfaces s) w
             | AuthDomain => set_authentication fopen_ok getpwnam (auth s) w
             end) w order.
Proof. reflexivity. Qed.


(** * The theorems at sample configurations *)

Lemma set_if_addr_forwarding_clause_witness :
  (Forall (fun i => fopen_always (systemd_cfg i) = true) [wan]
   /\ fopen_always (systemd_cfg eth0) = true
   /\ systemd_cfg eth0 ∉ map systemd_cfg [dot_lan])
  /\ files (set_if_addr "1.0" fopen_always ([wan] ++ eth0 :: [dot_lan]) empty_world)
       !! systemd_cfg eth0
     = Some ("# AUTOGENERATED BY cfgd v1.0" +:+ nl +:+ "[Match]" +:+ nl
             +:+ "Name=eth0" +:+ nl +:+ "[Link]" +:+ nl +:+ "MTUBytes=1500" +:+ nl
             +:+ "[Network]" +:+ nl +:+ "DHCP=no" +:+ nl
             +:+ "Address=192.0.2.7/24" +:+ nl +:+ "IPForward=ipv4" +:+ nl).
Proof.
  assert (Forall (fun i => fopen_always (systemd_cfg i) = true) [wan]) as Hbefore
    by (repeat constructor).
  assert (fopen_always (systemd_cfg eth0) = true) as Hok by reflexivity.
  assert (systemd_cfg eth0 ∉ map systemd_cfg [dot_lan]) as Hlast.
  { apply not_elem_of_cons. split; [| apply not_elem_of_nil].
    vm_compute. discriminate. }
  split; [done |].
  rewrite (set_if_addr_forwarding_clause "1.0" fopen_always [wan] [dot_lan] eth0
             empty_world Hbefore Hok Hlast).
  vm_compute. reflexivity.
Defined.

Lemma set_ssh_keys_no_op_witness :
  ("alice" <> "root" /\ "alice" <> "netconfd"
   /\ (no_account "alice" = None \/ @nil auth_ssh_key = []))
  /\ set_ssh_keys fopen_always no_account "alice" [] empty_world = empty_world.
Proof.
  assert ("alice" <> "root") as Hroot by discriminate.
  assert ("alice" <> "netconfd") as Hnetconfd by discriminate.
  assert (no_account "alice" = None \/ @nil auth_ssh_key = []) as Hcase
    by (left; reflexivity).
  split; [done |].
  apply (set_ssh_keys_no_op fopen_always no_account "alice" [] empty_world
           Hroot Hnetconfd Hcase).
Defined.

(** C2 as stated fails for [root]: with no such account and no key, the
    authorized-keys file of [root] is created, empty. *)
Lemma set_ssh_keys_root_writes :
  no_account "root" = None
  /\ files empty_world !! (ROOT_HOME +:+ "/.ssh/authorized_keys") = None
  /\ files (set_ssh_keys fopen_always no_account "root" [] empty_world)
       !! (ROOT_HOME +:+ "/.ssh/authorized_keys")
     = Some EmptyString.
Proof. split; [reflexivity |]. split; vm_compute; reflexivity. Qed.

Lemma set_ntp_server_stop_then_toggle_witness :
  fopen_always ntp_conf = true
  /\ issued (set_ntp_server "1.0" fopen_always ntp_two empty_world)
     = ["systemctl stop systemd-timesyncd"; "timedatectl set-ntp 1"].
Proof.
  split; [reflexivity |].
  apply (set_ntp_server_stop_then_toggle "1.0" fopen_always ntp_two empty_world).
  reflexivity.
Defined.

(** C3 as stated fails: with the service disabled the file is written, and
    the commands issued are the stop and the toggle; none of them restarts
    anything. *)
Lemma set_ntp_server_issues_no_restart :
  is_Some (files (set_ntp_server "1.0" fopen_always ntp_off empty_world) !! ntp_conf)
  /\ issued (set_ntp_server "1.0" fopen_always ntp_off empty_world)
     = ["systemctl stop systemd-timesyncd"; "timedatectl set-ntp 0"]
  /\ Forall (fun cmd => mentions "restart" cmd = false)
            (issued (set_ntp_server "1.0" fopen_always ntp_off empty_world)).
Proof.
  split; [by eexists; vm_compute |].
  split; [by vm_compute |].
  by repeat constructor.
Qed.

Lemma set_ntp_server_open_failure_witness :
  fopen_never ntp_conf = false
  /\ set_ntp_server "1.0" fopen_never ntp_two empty_world = empty_world.
Proof.
  split; [reflexivity |].
  apply (set_ntp_server_open_failure "1.0" fopen_never ntp_two empty_world).
  reflexivity.
Defined.

Lemma set_ntp_server_ntp_line_witness :
  (fopen_always ntp_conf = true
   /\ one_line "1.0" = true
   /\ Forall (fun s => one_line s = true) (server ntp_two))
  /\ exists content : string,
       files (set_ntp_server "1.0" fopen_always ntp_two empty_world) !! ntp_conf
       = Some content
       /\ lines content
          = ["# AUTOGENERATED BY cfgd v1.0"; "[Time]";
             "NTP = 0.pool.example 192.0.2.1"].
Proof.
  assert (fopen_always ntp_conf = true) as Hok by reflexivity.
  assert (one_line "1.0" = true) as Hver by reflexivity.
  assert (Forall (fun s => one_line s = true) (server ntp_two)) as Hservers
    by (repeat constructor).
  split; [done |].
  destruct (set_ntp_server_ntp_line "1.0" fopen_always ntp_two empty_world
              Hok Hver Hservers) as [content [Hfile [Hlines _]]].
  exists content. split; [exact Hfile | exact Hlines].
Defined.

(** C7 at a failing input.  The first run renders [.lan] and [eth0], the
    second only [eth0]; both open every file.  The name [.lan] is absent
    from the second list, yet its file is still there after the second run,
    with the text of the first: the glob of the [rm] command does not match
    a name that begins with a period. *)
Theorem set_if_addr_leaves_dot_file :
  (if_name dot_lan ∉ map if_name [eth0])
  /\ systemd_cfg dot_lan = "/etc/systemd/network/.lan.network"
  /\ glob_network (systemd_cfg dot_lan) = false
  /\ files (set_if_addr "1.0" fopen_always [eth0]
              (set_if_addr "1.0" fopen_always [dot_lan; eth0] empty_world))
       !! systemd_cfg dot_lan
     = Some (iface_text "1.0" dot_lan).
Proof.
  split.
  { apply not_elem_of_cons. split; [| apply not_elem_of_nil].
    vm_compute. discriminate. }
  split; [vm_compute; reflexivity |].
  split; vm_compute; reflexivity.
Qed.

(** The command built for [long_neighbour] is cut: 1023 characters are run,
    and the hardware address and the device are not among them. *)
Lemma neigh_command_cut :
  String.length (neigh_command eth0 long_neighbour) = 1023
  /\ mentions "lladdr" (neigh_command eth0 long_neighbour) = false
  /\ issued (set_if_neigh [{| if_name := "eth0"; dhcp_enabled := false;
                              ipv4 := {| mtu := 1500; forwarding := false;
                                         addr := []; neigh := [long_neighbour] |};
                              ipv6 := family 1500 false [] |}] empty_world)
     = ["ip neigh flush nud permanent"; neigh_command eth0 long_neighbour].
Proof. split; [| split]; vm_compute; reflexivity. Qed.



(** * Further theorems at sample configurations *)

Lemma set_dns_lines_witness :
  (fopen_always dns_conf = true
   /\ one_line "1.0" = true
   /\ Forall (fun s => one_line s = true) ["1.1.1.1"; "9.9.9.9"]
   /\ Forall (fun s => one_line s = true) ["corp.example"])
  /\ exists content : string,
       files (set_dns "1.0" fopen_always ["corp.example"] ["1.1.1.1"; "9.9.9.9"]
                      empty_world) !! dns_conf
       = Some content
       /\ lines content
          = ["# AUTOGENERATED BY cfgd v1.0"; "[Resolve]"; "DNS = 1.1.1.1 9.9.9.9";
             "Domains = corp.example"].
Proof.
  assert (fopen_always dns_conf = true) as Hok by reflexivity.
  assert (one_line "1.0" = true) as Hver by reflexivity.
  assert (Forall (fun s => one_line s = true) ["1.1.1.1"; "9.9.9.9"]) as Hservers
    by (repeat constructor).
  assert (Forall (fun s => one_line s = true) ["corp.example"]) as Hsearch
    by (repeat constructor).
  split; [repeat split; assumption |].
  apply (set_dns_lines "1.0" fopen_always ["corp.example"] ["1.1.1.1"; "9.9.9.9"]
           empty_world Hok Hver Hservers Hsearch).
Defined.

Lemma set_ntp_server_other_files_witness :
  dns_conf <> ntp_conf
  /\ files (set_ntp_server "1.0" fopen_always ntp_two
              (store dns_conf "kept" empty_world)) !! dns_conf
     = Some "kept".
Proof.
  assert (dns_conf <> ntp_conf) as Hne by discriminate.
  split; [exact Hne |].
  rewrite (set_ntp_server_other_files "1.0" fopen_always ntp_two
             (store dns_conf "kept" empty_world) dns_conf Hne).
  reflexivity.
Defined.

Lemma set_dns_other_files_witness :
  ntp_conf <> dns_conf
  /\ files (set_dns "1.0" fopen_always [] []
              (store ntp_conf "kept" empty_world)) !! ntp_conf
     = Some "kept".
Proof.
  assert (ntp_conf <> dns_conf) as Hne by discriminate.
  split; [exact Hne |].
  rewrite (set_dns_other_files "1.0" fopen_always [] []
             (store ntp_conf "kept" empty_world) ntp_conf Hne).
  reflexivity.
Defined.


Lemma set_authentication_file_witness :
  (auth_path accounts root_new = Some "/home/root/.ssh/authorized_keys"
   /\ fopen_always "/home/root/.ssh/authorized_keys" = true
   /\ Forall (fun v => auth_path accounts v <> Some "/home/root/.ssh/authorized_keys")
             [alice])
  /\ files (set_authentication fopen_always accounts
              ([root_old] ++ root_new :: [alice]) empty_world)
       !! "/home/root/.ssh/authorized_keys"
     = Some ("ssh-rsa AAAAB3NzaC1yc2E admin@example" +:+ nl).
Proof.
  assert (auth_path accounts root_new = Some "/home/root/.ssh/authorized_keys")
    as Hpath by reflexivity.
  assert (fopen_always "/home/root/.ssh/authorized_keys" = true) as Hok
    by reflexivity.
  assert (Forall (fun v => auth_path accounts v
                           <> Some "/home/root/.ssh/authorized_keys") [alice])
    as Hafter by (repeat constructor; vm_compute; discriminate).
  split; [repeat split; assumption |].
  apply (set_authentication_file fopen_always accounts [root_old] [alice] root_new
           "/home/root/.ssh/authorized_keys" empty_world Hpath Hok Hafter).
Defined.

Lemma set_if_addr_open_failure_witness :
  (Forall (fun i => fopen_not_wan (systemd_cfg i) = true) [eth0]
   /\ fopen_not_wan (systemd_cfg wan) = false)
  /\ vsystem "systemctl reload-or-restart systemd-networkd"
             (set_if_addr "1.0" fopen_not_wan ([eth0] ++ wan :: [dot_lan]) empty_world)
     = set_if_addr "1.0" fopen_not_wan [eth0] empty_world.
Proof.
  assert (Forall (fun i => fopen_not_wan (systemd_cfg i) = true) [eth0]) as Hbefore
    by (repeat constructor).
  assert (fopen_not_wan (systemd_cfg wan) = false) as Hbad by reflexivity.
  split; [split; assumption |].
  apply (set_if_addr_open_failure "1.0" fopen_not_wan [eth0] [dot_lan] wan
           empty_world Hbefore Hbad).
Defined.

Lemma set_if_addr_other_files_witness :
  (glob_network (systemd_cfg dot_lan) = false
   /\ systemd_cfg dot_lan ∉ map systemd_cfg [eth0])
  /\ files (set_if_addr "1.0" fopen_always [eth0]
              (store (systemd_cfg dot_lan) "old" empty_world)) !! systemd_cfg dot_lan
     = Some "old".
Proof.
  assert (glob_network (systemd_cfg dot_lan) = false) as Hglob
    by (vm_compute; reflexivity).
  assert (systemd_cfg dot_lan ∉ map systemd_cfg [eth0]) as Hnot.
  { apply not_elem_of_cons. split; [| apply not_elem_of_nil].
    vm_compute. discriminate. }
  split; [split; assumption |].
  rewrite (set_if_addr_other_files "1.0" fopen_always [eth0]
             (store (systemd_cfg dot_lan) "old" empty_world) (systemd_cfg dot_lan)
             Hglob Hnot).
  apply store_lookup_eq.
Defined.

Lemma set_if_addr_file_text_witness :
  (Forall (fun i => fopen_always (systemd_cfg i) = true) [wan]
   /\ fopen_always (systemd_cfg eth0) = true
   /\ systemd_cfg eth0 ∉ map systemd_cfg [dot_lan])
  /\ files (set_if_addr "1.0" fopen_always ([wan] ++ eth0 :: [dot_lan]) empty_world)
       !! systemd_cfg eth0
     = Some ("# AUTOGENERATED BY cfgd v1.0" +:+ nl +:+ "[Match]" +:+ nl
             +:+ "Name=eth0" +:+ nl +:+ "[Link]" +:+ nl +:+ "MTUBytes=1500" +:+ nl
             +:+ "[Network]" +:+ nl +:+ "DHCP=no" +:+ nl
             +:+ "Address=192.0.2.7/24" +:+ nl +:+ "IPForward=ipv4" +:+ nl).
Proof.
  assert (Forall (fun i => fopen_always (systemd_cfg i) = true) [wan]) as Hbefore
    by (repeat constructor).
  assert (fopen_always (systemd_cfg eth0) = true) as Hok by reflexivity.
  assert (systemd_cfg eth0 ∉ map systemd_cfg [dot_lan]) as Hlast.
  { apply not_elem_of_cons. split; [| apply not_elem_of_nil].
    vm_compute. discriminate. }
  split; [repeat split; assumption |].
  rewrite (set_if_addr_file_text "1.0" fopen_always [wan] [dot_lan] eth0
             empty_world Hbefore Hok Hlast).
  vm_compute. reflexivity.
Defined.

Lemma set_if_neigh_files_witness :
  forallb quiet_command
          (emitted (set_if_neigh [eth0; eth1]) (store dns_conf "kept" empty_world))
  = true
  /\ files (set_if_neigh [eth0; eth1] (store dns_conf "kept" empty_world))
     = files (store dns_conf "kept" empty_world).
Proof.
  assert (forallb quiet_command
            (emitted (set_if_neigh [eth0; eth1]) (store dns_conf "kept" empty_world))
          = true) as Hquiet by (vm_compute; reflexivity).
  split; [exact Hquiet |].
  apply (set_if_neigh_files [eth0; eth1] (store dns_conf "kept" empty_world) Hquiet).
Defined.

Lemma sig_usr2_toggles_witness :
  logx_level {| logx_level := LOG_INFO; log_remote := None;
                stdout := []; stderr := [] |} = LOG_INFO
  /\ logx_level (Nat.iter 3 sig_usr2
                   {| logx_level := LOG_INFO; log_remote := None;
                      stdout := []; stderr := [] |})
     = LOG_DEBUG.
Proof.
  split; [reflexivity |].
  apply (sig_usr2_toggles 3 {| logx_level := LOG_INFO; log_remote := None;
                               stdout := []; stderr := [] |}).
  reflexivity.
Defined.

Lemma main_options_started_witness :
  Forall (fun o => passes inet_aton_sample o = true)
         [(char_code "x", EmptyString); (char_code "l", "192.0.2.9");
          (char_code "?", EmptyString)]
  /\ exists p : process,
       main_options inet_aton_sample
         [(char_code "x", EmptyString); (char_code "l", "192.0.2.9");
          (char_code "?", EmptyString)]
       = Started p
       /\ logx_level p = LOG_DEBUG
       /\ log_remote p = Some "192.0.2.9"
       /\ stdout p = ["?? getopt returned character code 077 ??" +:+ nl].
Proof.
  assert (Forall (fun o => passes inet_aton_sample o = true)
            [(char_code "x", EmptyString); (char_code "l", "192.0.2.9");
             (char_code "?", EmptyString)]) as Hall
    by (repeat constructor).
  split; [exact Hall |].
  apply (main_options_started inet_aton_sample _ Hall).
Defined.

Lemma main_options_help_witness :
  Forall (fun o => passes inet_aton_sample o = true) [(char_code "x", EmptyString)]
  /\ exists p : process,
       main_options inet_aton_sample
         ([(char_code "x", EmptyString)] ++ (char_code "h", EmptyString)
          :: [(char_code "l", "nonsense")])
       = Exited EXIT_SUCCESS p
       /\ last (stdout p) = Some usage_text
       /\ stderr p = [].
Proof.
  assert (Forall (fun o => passes inet_aton_sample o = true)
            [(char_code "x", EmptyString)]) as Hall by (repeat constructor).
  split; [exact Hall |].
  apply (main_options_help inet_aton_sample [(char_code "x", EmptyString)]
           [(char_code "l", "nonsense")] EmptyString Hall).
Defined.

Lemma main_options_invalid_address_witness :
  (Forall (fun o => passes inet_aton_sample o = true) [(char_code "x", EmptyString)]
   /\ inet_aton_sample "nonsense" = None)
  /\ exists p : process,
       main_options inet_aton_sample
         ([(char_code "x", EmptyString)] ++ (char_code "l", "nonsense")
          :: [(char_code "h", EmptyString)])
       = Exited EXIT_FAILURE p
       /\ stderr p = ["Invalid IP address: 'nonsense'" +:+ nl].
Proof.
  assert (Forall (fun o => passes inet_aton_sample o = true)
            [(char_code "x", EmptyString)]) as Hall by (repeat constructor).
  assert (inet_aton_sample "nonsense" = None) as Hbad by reflexivity.
  split; [split; assumption |].
  apply (main_options_invalid_address inet_aton_sample [(char_code "x", EmptyString)]
           [(char_code "h", EmptyString)] "nonsense" Hall Hbad).
Defined.
